(** * Carbon footprint calculator: the emissions engine of [src/app/page.tsx]

    The development embeds the pure part of the calculator: the factor
    tables, the three sector calculators, the aggregator and the
    recommendation generator.

    JavaScript numbers are kept abstract behind the class [JsNum], so that
    each function below is written once, line by line after the TypeScript
    source, and can be read under two semantics:

    - [Exact.num]: rationals with exact arithmetic, extended with [NaN].
      The rounding of binary64 is abstracted away; this is the semantics in
      which the algebraic statements (monotonicity, bounds, scaling laws)
      are proved.
    - [Binary64.num]: IEEE 754 binary64 with round-to-nearest-even, the
      arithmetic a JavaScript engine really performs; the concrete
      scenarios are evaluated in it as well.

    Property lookups in object literals go through the prototype chain, as
    in JavaScript: a key that is neither an own property nor inherited from
    [Object.prototype] yields [undefined]. *)

From Stdlib Require Import String List Bool ZArith QArith Qminmax Lqa Lia.
From Stdlib Require Import PrimFloat Uint63 SpecFloat FloatOps FloatAxioms.
Import ListNotations.

Set Implicit Arguments.
Set Warnings "-inexact-float".

(** ** JavaScript numbers and values *)

Declare Scope js_scope.
Delimit Scope js_scope with js.

Class JsNum (num : Type) : Type := {
  lit : Q -> num;                 (* a non-negative decimal literal *)
  nan : num;                      (* ToNumber(undefined), ToNumber(object) *)
  add : num -> num -> num;
  sub : num -> num -> num;
  mul : num -> num -> num;
  div : num -> num -> num;
  Math_min : num -> num -> num;
  Math_max : num -> num -> num;
  gtb : num -> num -> bool;       (* a > b *)
  ltb : num -> num -> bool;       (* a < b *)
  truthy : num -> bool            (* ToBoolean: false on 0, -0 and NaN *)
}.

Arguments lit {num _} _%_Q.

Infix "+" := add : js_scope.
Infix "-" := sub : js_scope.
Infix "*" := mul : js_scope.
Infix "/" := div : js_scope.
Infix ">" := gtb : js_scope.
Infix "<" := ltb : js_scope.

Module Js.

(** What a property read on one of the constant tables can return. *)
Inductive value (num : Type) : Type :=
| VNum (n : num)
| VUndefined
| VObject.            (* a function or object inherited from Object.prototype *)

Arguments VUndefined {num}.
Arguments VObject {num}.

(** Property names every object literal inherits from [Object.prototype]. *)
Definition prototype_keys : list string :=
  [ "constructor"; "hasOwnProperty"; "isPrototypeOf"; "propertyIsEnumerable";
    "toLocaleString"; "toString"; "valueOf"; "__proto__";
    "__defineGetter__"; "__defineSetter__";
    "__lookupGetter__"; "__lookupSetter__" ]%string.

Definition inherited (key : string) : bool :=
  existsb (String.eqb key) prototype_keys.

Fixpoint own (num : Type) (obj : list (string * num)) (key : string) : option num :=
  match obj with
  | [] => None
  | (k, v) :: rest => if String.eqb key k then Some v else own rest key
  end.

(** [obj[key]] on an object literal [obj]. *)
Definition get (num : Type) (obj : list (string * num)) (key : string) : value num :=
  match own obj key with
  | Some v => VNum v
  | None => if inherited key then VObject else VUndefined
  end.

Section Coercions.
Context {num : Type} `{JsNum num}.

Definition to_number (v : value num) : num :=
  match v with
  | VNum n => n
  | VUndefined | VObject => nan
  end.

Definition to_boolean (v : value num) : bool :=
  match v with
  | VNum n => truthy n
  | VUndefined => false
  | VObject => true
  end.

(** [a || b] *)
Definition or_else (a b : value num) : value num :=
  if to_boolean a then a else b.

(** ToBoolean on an optional number field ([undefined] when absent). *)
Definition truthy_opt (o : option num) : bool :=
  match o with
  | Some n => truthy n
  | None => false
  end.

Definition of_opt (o : option num) : num :=
  match o with
  | Some n => n
  | None => nan
  end.
End Coercions.

(** ToBoolean on a string: only the empty string is falsy. *)
Definition truthy_str (s : string) : bool :=
  negb (String.eqb s "").

End Js.

(** ** Exact semantics: rationals in lowest terms, and NaN *)

Module Exact.

Inductive num : Type :=
| Fin (q : Q)
| NaN.

Definition lift2 (f : Q -> Q -> Q) (a b : num) : num :=
  match a, b with
  | Fin x, Fin y => Fin (Qred (f x y))
  | _, _ => NaN
  end.

Definition cmp (f : Q -> Q -> bool) (a b : num) : bool :=
  match a, b with
  | Fin x, Fin y => f x y
  | _, _ => false
  end.

Definition Qltb (x y : Q) : bool := negb (Qle_bool y x).

(** Division by zero does not produce a rational; none of the divisors of
    the calculator can be zero, and the case is mapped to [NaN]. *)
Definition qdiv (a b : num) : num :=
  match a, b with
  | Fin x, Fin y => if Qeq_bool y 0 then NaN else Fin (Qred (x / y))
  | _, _ => NaN
  end.

#[global] Instance exact : JsNum num := {
  lit q := Fin (Qred q);
  nan := NaN;
  add := lift2 Qplus;
  sub := lift2 Qminus;
  mul := lift2 Qmult;
  div := qdiv;
  Math_min := lift2 Qmin;
  Math_max := lift2 Qmax;
  gtb a b := cmp Qltb b a;
  ltb a b := cmp Qltb a b;
  truthy a := match a with Fin x => negb (Qeq_bool x 0) | NaN => false end
}.

(** Order on results; nothing compares with [NaN]. *)
Definition le (a b : num) : Prop :=
  match a, b with
  | Fin x, Fin y => (x <= y)%Q
  | _, _ => False
  end.

Definition lt (a b : num) : Prop :=
  match a, b with
  | Fin x, Fin y => (x < y)%Q
  | _, _ => False
  end.

Definition finite (a : num) : Prop :=
  match a with Fin _ => True | NaN => False end.

End Exact.

(** ** Binary64 semantics *)

Module Binary64.

Definition num : Type := float.

(** A decimal literal [n/d] with [n] and [d] below 2^53 is the correctly
    rounded quotient of two exactly represented integers. *)
Definition of_decimal (q : Q) : float :=
  PrimFloat.div (of_uint63 (Uint63.of_Z (Qnum q)))
                (of_uint63 (Uint63.of_Z (Zpos (Qden q)))).

Definition fmin (a b : float) : float :=
  if is_nan a || is_nan b then PrimFloat.nan
  else if PrimFloat.ltb a b then a
  else if PrimFloat.ltb b a then b
  else if get_sign a then a else b.

Definition fmax (a b : float) : float :=
  if is_nan a || is_nan b then PrimFloat.nan
  else if PrimFloat.ltb a b then b
  else if PrimFloat.ltb b a then a
  else if get_sign a then b else a.

#[global] Instance binary64 : JsNum num := {
  lit := of_decimal;
  nan := PrimFloat.nan;
  add := PrimFloat.add;
  sub := PrimFloat.sub;
  mul := PrimFloat.mul;
  div := PrimFloat.div;
  Math_min := fmin;
  Math_max := fmax;
  gtb a b := PrimFloat.ltb b a;
  ltb a b := PrimFloat.ltb a b;
  truthy a := negb (PrimFloat.is_zero a || is_nan a)
}.

End Binary64.

(** ** Choosing a semantics *)

Inductive semantics : Type :=
| exact_arithmetic
| binary64_arithmetic.

Definition number (s : semantics) : Type :=
  match s with
  | exact_arithmetic => Exact.num
  | binary64_arithmetic => Binary64.num
  end.

#[global] Instance number_ops (s : semantics) : JsNum (number s) | 100 :=
  match s with
  | exact_arithmetic => Exact.exact
  | binary64_arithmetic => Binary64.binary64
  end.

(** ** Data model (the interfaces of page.tsx) *)

Record Motorcycle (num : Type) : Type := {
  owns : bool;
  type : option string;
  km : option num
}.

Record TransportData (num : Type) : Type := {
  carType : string;
  carKm : num;
  carAge : num;
  carPassengers : num;
  publicTransportType : string;
  publicTransportKm : num;
  flightsShortHaul : num;
  flightsMediumHaul : num;
  flightsLongHaul : num;
  motorcycle : Motorcycle num
}.

Record EnergyData (num : Type) : Type := {
  homeType : string;
  homeSize : num;
  occupants : num;
  electricityKwh : num;
  heatingType : string;
  heatingConsumption : num;
  renewableEnergy : bool;
  renewablePercentage : option num;
  insulation : string
}.

Record ShoppingHabits (num : Type) : Type := {
  clothes : num;
  electronics : num;
  furniture : num
}.

Record LifestyleData (num : Type) : Type := {
  dietType : string;
  meatFrequency : option num;
  localFoodPercentage : num;
  wasteRecycling : bool;
  wasteComposting : bool;
  shoppingHabits : ShoppingHabits num;
  waterConsumption : num
}.

Record FormData (num : Type) : Type := {
  transport : TransportData num;
  energy : EnergyData num;
  lifestyle : LifestyleData num
}.

Module Breakdown.
Record t (num : Type) : Type := {
  transport : num;
  energy : num;
  lifestyle : num
}.
End Breakdown.

Record Comparison (num : Type) : Type := {
  percentageFromNational : num;
  percentageFromWorld : num;
  nationalAverage : num;
  worldAverage : num
}.

Record CarbonFootprintResult (num : Type) : Type := {
  total : num;
  breakdown : Breakdown.t num;
  comparison : Comparison num
}.

Record Action : Type := {
  title : string;
  impact : string;
  description : string
}.

Record Recommendation : Type := {
  category : string;
  actions : list Action
}.

(** ** Factor tables *)

Module EMISSIONS_FACTORS.
Section Tables.
Context {num : Type} `{JsNum num}.
Local Open Scope string_scope.

Definition car : list (string * num) :=
  [ ("electric", lit 0.024);
    ("hybrid", lit 0.089);
    ("petrol", lit 0.192);
    ("diesel", lit 0.171);
    ("none", lit 0) ].

Definition flights_shortHaul : num := lit 180.
Definition flights_mediumHaul : num := lit 400.
Definition flights_longHaul : num := lit 1800.

Definition publicTransport : list (string * num) :=
  [ ("bus", lit 0.089);
    ("train", lit 0.041);
    ("tram", lit 0.035);
    ("subway", lit 0.033);
    ("none", lit 0) ].

Definition diet : list (string * num) :=
  [ ("vegan", lit 1000);
    ("vegetarian", lit 1500);
    ("pescatarian", lit 1700);
    ("flexitarian", lit 2000);
    ("omnivore", lit 2500) ].

Definition diet_omnivore : num := lit 2500.
End Tables.
End EMISSIONS_FACTORS.

Section Engine.
Context {num : Type} `{JsNum num}.
Local Open Scope string_scope.
Local Open Scope js_scope.
Import Js.

Definition ENERGY_CONVERSION_FACTORS : list (string * num) :=
  [ ("gas", lit 10.55);
    ("oil", lit 10.0);
    ("electric", lit 1);
    ("heatPump", lit 1) ].

(** ** Sector calculators *)

Definition calculateTransportEmissions (transport : TransportData num) : num :=
  let emissions := lit 0 in
  let emissions :=
    if truthy_str (carType transport) && negb (carType transport =? "none")%string then
      let baseEmission := get EMISSIONS_FACTORS.car (carType transport) in
      let ageMultiplier := lit 1 + (Math_min (carAge transport) (lit 15) * lit 0.02) in
      let passengerDivisor := Math_max (carPassengers transport) (lit 1) in
      emissions + (carKm transport * to_number baseEmission * ageMultiplier) / passengerDivisor
    else emissions in
  let emissions :=
    if truthy_str (publicTransportType transport)
       && negb (publicTransportType transport =? "none")%string then
      let ptEmission := get EMISSIONS_FACTORS.publicTransport (publicTransportType transport) in
      emissions + publicTransportKm transport * to_number ptEmission
    else emissions in
  let emissions := emissions + flightsShortHaul transport * EMISSIONS_FACTORS.flights_shortHaul in
  let emissions := emissions + flightsMediumHaul transport * EMISSIONS_FACTORS.flights_mediumHaul in
  let emissions := emissions + flightsLongHaul transport * EMISSIONS_FACTORS.flights_longHaul in
  emissions / lit 1000.

Definition calculateEnergyEmissions (energy : EnergyData num) : num :=
  let baseElectricityEmission := lit 0.0571 in
  let heatingEmissionFactors : list (string * num) :=
    [ ("gas", lit 0.205);
      ("oil", lit 0.324);
      ("electric", lit 0.0571);
      ("heatPump", lit 0.019) ] in
  let electricityEmissions := (electricityKwh energy / lit 1000) * baseElectricityEmission in
  let electricityEmissions :=
    if renewableEnergy energy && truthy_opt (renewablePercentage energy) then
      electricityEmissions * (lit 1 - of_opt (renewablePercentage energy) / lit 100)
    else electricityEmissions in
  let heatingKwh :=
    heatingConsumption energy *
    to_number (or_else (get ENERGY_CONVERSION_FACTORS (heatingType energy)) (VNum (lit 1))) in
  let heatingEmissionFactor :=
    or_else (get heatingEmissionFactors (heatingType energy))
            (get heatingEmissionFactors "electric") in
  let heatingEmissions := (heatingKwh / lit 1000) * to_number heatingEmissionFactor in
  let insulationFactors : list (string * num) :=
    [ ("poor", lit 1.3);
      ("medium", lit 1);
      ("good", lit 0.8);
      ("excellent", lit 0.6) ] in
  let insulationMultiplier :=
    or_else (get insulationFactors (insulation energy)) (VNum (lit 1)) in
  (electricityEmissions + heatingEmissions) * to_number insulationMultiplier.

Definition calculateLifestyleEmissions (lifestyle : LifestyleData num) : num :=
  let emissions := lit 0 in
  let dietEmission :=
    or_else (get EMISSIONS_FACTORS.diet (dietType lifestyle))
            (VNum EMISSIONS_FACTORS.diet_omnivore) in
  let localFoodAdjustment := lit 1 - (localFoodPercentage lifestyle * lit 0.002) in
  let emissions := emissions + (to_number dietEmission * localFoodAdjustment) / lit 1000 in
  let shoppingEmissions :=
    (clothes (shoppingHabits lifestyle) * lit 0.1 +
     electronics (shoppingHabits lifestyle) * lit 0.2 +
     furniture (shoppingHabits lifestyle) * lit 0.15) * lit 0.01 in
  let emissions := emissions + shoppingEmissions in
  let emissions := if wasteRecycling lifestyle then emissions * lit 0.9 else emissions in
  let emissions := if wasteComposting lifestyle then emissions * lit 0.95 else emissions in
  emissions.

(** ** Aggregator *)

Definition compareToNationalAverage (totalEmissions : num) : Comparison num :=
  let frenchAverage := lit 9.0 in
  let worldAverage := lit 4.7 in
  {| percentageFromNational := ((totalEmissions - frenchAverage) / frenchAverage) * lit 100;
     percentageFromWorld := ((totalEmissions - worldAverage) / worldAverage) * lit 100;
     nationalAverage := frenchAverage;
     worldAverage := worldAverage |}.

(** The value [calculateFinalFootprint] stores with [setCarbonFootprint]. *)
Definition calculateFinalFootprint (formData : FormData num) : CarbonFootprintResult num :=
  let transportEmissions := calculateTransportEmissions (transport formData) in
  let energyEmissions := calculateEnergyEmissions (energy formData) in
  let lifestyleEmissions := calculateLifestyleEmissions (lifestyle formData) in
  let total := transportEmissions + energyEmissions + lifestyleEmissions in
  let comparison := compareToNationalAverage total in
  {| total := total;
     breakdown := {| Breakdown.transport := transportEmissions;
                     Breakdown.energy := energyEmissions;
                     Breakdown.lifestyle := lifestyleEmissions |};
     comparison := comparison |}.

End Engine.

(** ** Recommendation engine *)

(** The eleven action literals of [getDetailedRecommendations], in the order
    of the source. *)
Module Actions.
Local Open Scope string_scope.

Definition reduce_car : Action :=
  {| title := "Réduisez vos déplacements en voiture";
     impact := "Élevé";
     description := "Essayez le covoiturage ou les transports en commun pour vos trajets réguliers. Une réduction de 20% de vos trajets en voiture pourrait économiser jusqu'à 600kg de CO2 par an." |}.

Definition optimise_flights : Action :=
  {| title := "Optimisez vos voyages en avion";
     impact := "Modéré";
     description := "Un vol long-courrier par an reste raisonnable. Pour réduire davantage votre impact, privilégiez le train pour les destinations accessibles et regroupez vos voyages lointains." |}.

Definition greener_vehicle : Action :=
  {| title := "Envisagez un véhicule plus écologique";
     impact := "Élevé";
     description := "Le passage à un véhicule hybride ou électrique pourrait réduire vos émissions de transport de 50 à 75%." |}.

Definition optimise_electricity : Action :=
  {| title := "Optimisez votre consommation électrique";
     impact := "Élevé";
     description := "Remplacez vos appareils énergivores par des modèles A+++, utilisez des LED et éteignez les appareils en veille. Potentiel d'économie : 20-30% de votre consommation." |}.

Definition switch_to_renewables : Action :=
  {| title := "Passez aux énergies renouvelables";
     impact := "Très élevé";
     description := "Changer pour un fournisseur d'énergie verte peut réduire l'empreinte carbone de votre consommation électrique jusqu'à 75%." |}.

Definition improve_insulation : Action :=
  {| title := "Améliorez l'isolation de votre logement";
     impact := "Élevé";
     description := "Une bonne isolation peut réduire votre consommation de chauffage de 30 à 50%. Commencez par les combles et les fenêtres." |}.

Definition change_heating : Action :=
  {| title := "Changez votre système de chauffage";
     impact := "Très élevé";
     description := "Remplacer le chauffage au fioul par une pompe à chaleur peut réduire vos émissions de chauffage de plus de 80%." |}.

Definition less_meat : Action :=
  {| title := "Réduisez votre consommation de viande";
     impact := "Élevé";
     description := "Devenir flexitarien en réduisant votre consommation de viande de 50% peut diminuer l'empreinte carbone de votre alimentation d'environ 30%." |}.

Definition local_food : Action :=
  {| title := "Privilégiez les produits locaux et de saison";
     impact := "Modéré";
     description := "Consommer local et de saison réduit les émissions liées au transport et aux serres chauffées. Visez 50% de produits locaux." |}.

Definition waste_management : Action :=
  {| title := "Améliorez votre gestion des déchets";
     impact := "Modéré";
     description := "Le recyclage et le compostage peuvent réduire vos émissions liées aux déchets de 25%. Commencez par trier vos déchets et compostez vos déchets organiques." |}.

Definition responsible_shopping : Action :=
  {| title := "Adoptez une consommation plus responsable";
     impact := "Modéré";
     description := "Privilégiez les achats d'occasion, réparez vos appareils et gardez vos vêtements plus longtemps. Réduisez vos achats non essentiels de 30%." |}.
End Actions.

Section Recommendations.
Context {num : Type} `{JsNum num}.
Local Open Scope string_scope.
Local Open Scope js_scope.

(** [arr.push(x)] on a locally built array. *)
Definition push {A : Type} (arr : list A) (x : A) : list A := arr ++ [x].

Definition getDetailedRecommendations (formData : FormData num) : list Recommendation :=
  let recommendations : list Recommendation := [] in
  (* Transport *)
  let transportRecs : list Action := [] in
  let transportRecs :=
    if carKm (transport formData) > lit 15000
    then push transportRecs Actions.reduce_car else transportRecs in
  let transportRecs :=
    if flightsLongHaul (transport formData) > lit 0
    then push transportRecs Actions.optimise_flights else transportRecs in
  let transportRecs :=
    if (carType (transport formData) =? "petrol")%string
       || (carType (transport formData) =? "diesel")%string
    then push transportRecs Actions.greener_vehicle else transportRecs in
  let recommendations :=
    if (0 <? length transportRecs)%nat
    then push recommendations {| category := "Transport"; actions := transportRecs |}
    else recommendations in
  (* Energy *)
  let energyRecs : list Action := [] in
  let energyRecs :=
    if electricityKwh (energy formData) > lit 5000
    then push energyRecs Actions.optimise_electricity else energyRecs in
  let energyRecs :=
    if negb (renewableEnergy (energy formData))
    then push energyRecs Actions.switch_to_renewables else energyRecs in
  let energyRecs :=
    if (insulation (energy formData) =? "poor")%string
       || (insulation (energy formData) =? "medium")%string
    then push energyRecs Actions.improve_insulation else energyRecs in
  let energyRecs :=
    if (heatingType (energy formData) =? "oil")%string
    then push energyRecs Actions.change_heating else energyRecs in
  let recommendations :=
    if (0 <? length energyRecs)%nat
    then push recommendations {| category := "Énergie"; actions := energyRecs |}
    else recommendations in
  (* Lifestyle *)
  let lifestyleRecs : list Action := [] in
  let lifestyleRecs :=
    if (dietType (lifestyle formData) =? "omnivore")%string
    then push lifestyleRecs Actions.less_meat else lifestyleRecs in
  let lifestyleRecs :=
    if localFoodPercentage (lifestyle formData) < lit 30
    then push lifestyleRecs Actions.local_food else lifestyleRecs in
  let lifestyleRecs :=
    if negb (wasteRecycling (lifestyle formData))
       || negb (wasteComposting (lifestyle formData))
    then push lifestyleRecs Actions.waste_management else lifestyleRecs in
  let lifestyleRecs :=
    if (clothes (shoppingHabits (lifestyle formData)) > lit 70)
       || (electronics (shoppingHabits (lifestyle formData)) > lit 70)
    then push lifestyleRecs Actions.responsible_shopping else lifestyleRecs in
  let recommendations :=
    if (0 <? length lifestyleRecs)%nat
    then push recommendations {| category := "Mode de vie"; actions := lifestyleRecs |}
    else recommendations in
  recommendations.

(** *** The rule table of the specification

    Each sector is an ordered list of independent threshold predicates,
    each paired with the action it triggers. *)

Definition Rule : Type := ((FormData num -> bool) * Action)%type.

Definition transport_rules : list Rule :=
  [ (fun fd => carKm (transport fd) > lit 15000, Actions.reduce_car);
    (fun fd => flightsLongHaul (transport fd) > lit 0, Actions.optimise_flights);
    (fun fd => (carType (transport fd) =? "petrol")%string
               || (carType (transport fd) =? "diesel")%string,
     Actions.greener_vehicle) ].

Definition energy_rules : list Rule :=
  [ (fun fd => electricityKwh (energy fd) > lit 5000, Actions.optimise_electricity);
    (fun fd => negb (renewableEnergy (energy fd)), Actions.switch_to_renewables);
    (fun fd => (insulation (energy fd) =? "poor")%string
               || (insulation (energy fd) =? "medium")%string,
     Actions.improve_insulation);
    (fun fd => (heatingType (energy fd) =? "oil")%string, Actions.change_heating) ].

Definition lifestyle_rules : list Rule :=
  [ (fun fd => (dietType (lifestyle fd) =? "omnivore")%string, Actions.less_meat);
    (fun fd => localFoodPercentage (lifestyle fd) < lit 30, Actions.local_food);
    (fun fd => negb (wasteRecycling (lifestyle fd)) || negb (wasteComposting (lifestyle fd)),
     Actions.waste_management);
    (fun fd => (clothes (shoppingHabits (lifestyle fd)) > lit 70)
               || (electronics (shoppingHabits (lifestyle fd)) > lit 70),
     Actions.responsible_shopping) ].

(** One action per true predicate, in declaration order. *)
Definition fired (rules : list Rule) (fd : FormData num) : list Action :=
  map snd (filter (fun r => fst r fd) rules).

Definition sector (name : string) (rules : list Rule) (fd : FormData num) : Recommendation :=
  {| category := name; actions := fired rules fd |}.

Definition has_action (r : Recommendation) : bool :=
  match actions r with
  | [] => false
  | _ :: _ => true
  end.

(** A sector is kept only if at least one of its predicates fired. *)
Definition recommendations_by_rules (fd : FormData num) : list Recommendation :=
  filter has_action
    [ sector "Transport" transport_rules fd;
      sector "Énergie" energy_rules fd;
      sector "Mode de vie" lifestyle_rules fd ].

End Recommendations.

(** * Vocabulary of the statements *)

Section Vocabulary.
Context {num : Type} `{JsNum num}.
Local Open Scope string_scope.
Local Open Scope js_scope.
Import Js.

(** Scenario 1: a five-year-old petrol car, 20000 km a year, one person on
    board, nothing else; the motorcycle block is left free. *)
Definition scenario1 (m : Motorcycle num) : TransportData num :=
  {| carType := "petrol";
     carKm := lit 20000;
     carAge := lit 5;
     carPassengers := lit 1;
     publicTransportType := "none";
     publicTransportKm := lit 0;
     flightsShortHaul := lit 0;
     flightsMediumHaul := lit 0;
     flightsLongHaul := lit 0;
     motorcycle := m |}.

(** Scenario 2: 6000 kWh of electricity, 1000 m3 of gas, medium insulation,
    no renewable contract; the descriptive fields are left free. *)
Definition scenario2 (home : string) (size occ : num) (pct : option num)
  : EnergyData num :=
  {| homeType := home;
     homeSize := size;
     occupants := occ;
     electricityKwh := lit 6000;
     heatingType := "gas";
     heatingConsumption := lit 1000;
     renewableEnergy := false;
     renewablePercentage := pct;
     insulation := "medium" |}.

(** Functional updates of single fields. *)
Definition with_carType (t : TransportData num) (c : string) : TransportData num :=
  {| carType := c;
     carKm := carKm t;
     carAge := carAge t;
     carPassengers := carPassengers t;
     publicTransportType := publicTransportType t;
     publicTransportKm := publicTransportKm t;
     flightsShortHaul := flightsShortHaul t;
     flightsMediumHaul := flightsMediumHaul t;
     flightsLongHaul := flightsLongHaul t;
     motorcycle := motorcycle t |}.

Definition with_carKm (t : TransportData num) (k : num) : TransportData num :=
  {| carType := carType t;
     carKm := k;
     carAge := carAge t;
     carPassengers := carPassengers t;
     publicTransportType := publicTransportType t;
     publicTransportKm := publicTransportKm t;
     flightsShortHaul := flightsShortHaul t;
     flightsMediumHaul := flightsMediumHaul t;
     flightsLongHaul := flightsLongHaul t;
     motorcycle := motorcycle t |}.

Definition with_carAge (t : TransportData num) (a : num) : TransportData num :=
  {| carType := carType t;
     carKm := carKm t;
     carAge := a;
     carPassengers := carPassengers t;
     publicTransportType := publicTransportType t;
     publicTransportKm := publicTransportKm t;
     flightsShortHaul := flightsShortHaul t;
     flightsMediumHaul := flightsMediumHaul t;
     flightsLongHaul := flightsLongHaul t;
     motorcycle := motorcycle t |}.

Definition with_carPassengers (t : TransportData num) (p : num) : TransportData num :=
  {| carType := carType t;
     carKm := carKm t;
     carAge := carAge t;
     carPassengers := p;
     publicTransportType := publicTransportType t;
     publicTransportKm := publicTransportKm t;
     flightsShortHaul := flightsShortHaul t;
     flightsMediumHaul := flightsMediumHaul t;
     flightsLongHaul := flightsLongHaul t;
     motorcycle := motorcycle t |}.

Definition with_publicTransportType (t : TransportData num) (p : string)
  : TransportData num :=
  {| carType := carType t;
     carKm := carKm t;
     carAge := carAge t;
     carPassengers := carPassengers t;
     publicTransportType := p;
     publicTransportKm := publicTransportKm t;
     flightsShortHaul := flightsShortHaul t;
     flightsMediumHaul := flightsMediumHaul t;
     flightsLongHaul := flightsLongHaul t;
     motorcycle := motorcycle t |}.

(** Scenario 4: any form in which the car is a petrol car driven 20000 km. *)
Definition scenario4 (fd : FormData num) : FormData num :=
  {| transport := with_carType (with_carKm (transport fd) (lit 20000)) "petrol";
     energy := energy fd;
     lifestyle := lifestyle fd |}.

Definition with_waste (l : LifestyleData num) (recycling composting : bool)
  : LifestyleData num :=
  {| dietType := dietType l;
     meatFrequency := meatFrequency l;
     localFoodPercentage := localFoodPercentage l;
     wasteRecycling := recycling;
     wasteComposting := composting;
     shoppingHabits := shoppingHabits l;
     waterConsumption := waterConsumption l |}.

(** Two records that may differ only in the fields no formula reads:
    the motorcycle block, home type, home size, occupants, meat frequency
    and water consumption. *)
Definition differ_only_in_unused (a b : FormData num) : Prop :=
  carType (transport a) = carType (transport b) /\
  carKm (transport a) = carKm (transport b) /\
  carAge (transport a) = carAge (transport b) /\
  carPassengers (transport a) = carPassengers (transport b) /\
  publicTransportType (transport a) = publicTransportType (transport b) /\
  publicTransportKm (transport a) = publicTransportKm (transport b) /\
  flightsShortHaul (transport a) = flightsShortHaul (transport b) /\
  flightsMediumHaul (transport a) = flightsMediumHaul (transport b) /\
  flightsLongHaul (transport a) = flightsLongHaul (transport b) /\
  electricityKwh (energy a) = electricityKwh (energy b) /\
  heatingType (energy a) = heatingType (energy b) /\
  heatingConsumption (energy a) = heatingConsumption (energy b) /\
  renewableEnergy (energy a) = renewableEnergy (energy b) /\
  renewablePercentage (energy a) = renewablePercentage (energy b) /\
  insulation (energy a) = insulation (energy b) /\
  dietType (lifestyle a) = dietType (lifestyle b) /\
  localFoodPercentage (lifestyle a) = localFoodPercentage (lifestyle b) /\
  wasteRecycling (lifestyle a) = wasteRecycling (lifestyle b) /\
  wasteComposting (lifestyle a) = wasteComposting (lifestyle b) /\
  shoppingHabits (lifestyle a) = shoppingHabits (lifestyle b).

(** An input whose numeric fields are all 0 (the two head counts may keep
    their initial value 1, optional numbers may be absent) and whose
    categorical fields are "none" where the table has it, or else the
    initial empty string or one of the listed values. *)
Definition zero_or_absent (o : option num) : Prop :=
  o = None \/ o = Some (lit 0).

Definition neutral_transport (t : TransportData num) : Prop :=
  carType t = "none" /\
  carKm t = lit 0 /\
  carAge t = lit 0 /\
  In (carPassengers t) [lit 0; lit 1] /\
  In (publicTransportType t) ["none"; ""] /\
  publicTransportKm t = lit 0 /\
  flightsShortHaul t = lit 0 /\
  flightsMediumHaul t = lit 0 /\
  flightsLongHaul t = lit 0 /\
  zero_or_absent (km (motorcycle t)).

Definition neutral_energy (e : EnergyData num) : Prop :=
  homeSize e = lit 0 /\
  In (occupants e) [lit 0; lit 1] /\
  electricityKwh e = lit 0 /\
  In (heatingType e) [""; "electric"; "gas"; "oil"; "heatPump"] /\
  heatingConsumption e = lit 0 /\
  zero_or_absent (renewablePercentage e) /\
  In (insulation e) ["poor"; "medium"; "good"; "excellent"].

Definition neutral_lifestyle (l : LifestyleData num) : Prop :=
  In (dietType l) [""; "vegan"; "vegetarian"; "pescatarian"; "flexitarian"; "omnivore"] /\
  zero_or_absent (meatFrequency l) /\
  localFoodPercentage l = lit 0 /\
  clothes (shoppingHabits l) = lit 0 /\
  electronics (shoppingHabits l) = lit 0 /\
  furniture (shoppingHabits l) = lit 0 /\
  waterConsumption l = lit 0.

Definition neutral (fd : FormData num) : Prop :=
  neutral_transport (transport fd) /\
  neutral_energy (energy fd) /\
  neutral_lifestyle (lifestyle fd).

(** The diet baseline in kg a year, with the fallback of the source. *)
Definition dietBaseline (d : string) : num :=
  to_number (or_else (get EMISSIONS_FACTORS.diet d) (VNum EMISSIONS_FACTORS.diet_omnivore)).

(** The two waste reductions, in the order of the source. *)
Definition wasteReductions (recycling composting : bool) (x : num) : num :=
  let x := if recycling then x * lit 0.9 else x in
  if composting then x * lit 0.95 else x.

(** The neutral record used as a test point: the initial form with the
    shopping sliders at 0. *)
Definition neutral_example : FormData num :=
  {| transport :=
       {| carType := "none"; carKm := lit 0; carAge := lit 0; carPassengers := lit 1;
          publicTransportType := "none"; publicTransportKm := lit 0;
          flightsShortHaul := lit 0; flightsMediumHaul := lit 0; flightsLongHaul := lit 0;
          motorcycle := {| owns := false; type := None; km := None |} |};
     energy :=
       {| homeType := ""; homeSize := lit 0; occupants := lit 1; electricityKwh := lit 0;
          heatingType := ""; heatingConsumption := lit 0; renewableEnergy := false;
          renewablePercentage := None; insulation := "medium" |};
     lifestyle :=
       {| dietType := ""; meatFrequency := None; localFoodPercentage := lit 0;
          wasteRecycling := false; wasteComposting := false;
          shoppingHabits := {| clothes := lit 0; electronics := lit 0; furniture := lit 0 |};
          waterConsumption := lit 0 |} |}.

End Vocabulary.

(** Ranges of section 3 of the specification, read in the exact semantics. *)
Module Domain.
Local Open Scope string_scope.

Definition nonneg (a : Exact.num) : Prop := Exact.le (lit 0) a.


Definition lifestyle_in_range (l : LifestyleData Exact.num) : Prop :=
  nonneg (localFoodPercentage l) /\
  Exact.le (localFoodPercentage l) (lit 100) /\
  nonneg (clothes (shoppingHabits l)) /\
  nonneg (electronics (shoppingHabits l)) /\
  nonneg (furniture (shoppingHabits l)).


End Domain.

(** A lifestyle record whose diet string names a property that every
    object literal inherits. *)
Definition inherited_diet {num : Type} `{JsNum num} : LifestyleData num :=
  {| dietType := "constructor"; meatFrequency := None; localFoodPercentage := lit 0;
     wasteRecycling := false; wasteComposting := false;
     shoppingHabits := {| clothes := lit 0; electronics := lit 0; furniture := lit 0 |};
     waterConsumption := lit 0 |}.

(** An omnivore who buys nothing and eats no local food. *)
Definition plain_omnivore {num : Type} `{JsNum num} : LifestyleData num :=
  {| dietType := "omnivore"; meatFrequency := None; localFoodPercentage := lit 0;
     wasteRecycling := false; wasteComposting := false;
     shoppingHabits := {| clothes := lit 0; electronics := lit 0; furniture := lit 0 |};
     waterConsumption := lit 0 |}.

(** ** Auxiliary definitions *)

Section Shape.
Context {num : Type} `{JsNum num}.
Local Open Scope string_scope.
Local Open Scope js_scope.
Import Js.



Definition no_motorcycle : Motorcycle num :=
  {| owns := false; type := None; km := None |}.

(** [neutral_example] with every field that no formula reads changed. *)
Definition furnished_example : FormData num :=
  {| transport :=
       {| carType := "none"; carKm := lit 0; carAge := lit 0; carPassengers := lit 1;
          publicTransportType := "none"; publicTransportKm := lit 0;
          flightsShortHaul := lit 0; flightsMediumHaul := lit 0; flightsLongHaul := lit 0;
          motorcycle := {| owns := true; type := Some "sport"; km := Some (lit 5000) |} |};
     energy :=
       {| homeType := "house"; homeSize := lit 120; occupants := lit 4;
          electricityKwh := lit 0;
          heatingType := ""; heatingConsumption := lit 0; renewableEnergy := false;
          renewablePercentage := None; insulation := "medium" |};
     lifestyle :=
       {| dietType := ""; meatFrequency := Some (lit 4); localFoodPercentage := lit 0;
          wasteRecycling := false; wasteComposting := false;
          shoppingHabits := {| clothes := lit 0; electronics := lit 0; furniture := lit 0 |};
          waterConsumption := lit 150 |} |}.
End Shape.


Definition lifestyleQ (r w : bool) (d lf c e f : Q) : Q :=
  (if w then 0.95 else 1) * ((if r then 0.9 else 1)
   * (d * (1 - lf * 0.002) / 1000 + (c * 0.1 + e * 0.2 + f * 0.15) * 0.01)).

(** ** The wizard around the engine *)

Section Wizard.
Context {num : Type} `{JsNum num}.
Local Open Scope string_scope.
Local Open Scope Z_scope.

Definition initialFormData : FormData num :=
  {| transport :=
       {| carType := "none";
          carKm := lit 0;
          carAge := lit 0;
          carPassengers := lit 1;
          publicTransportType := "";
          publicTransportKm := lit 0;
          flightsShortHaul := lit 0;
          flightsMediumHaul := lit 0;
          flightsLongHaul := lit 0;
          motorcycle := {| owns := false; type := None; km := None |} |};
     energy :=
       {| homeType := "";
          homeSize := lit 0;
          occupants := lit 1;
          electricityKwh := lit 0;
          heatingType := "";
          heatingConsumption := lit 0;
          renewableEnergy := false;
          renewablePercentage := None;
          insulation := "medium" |};
     lifestyle :=
       {| dietType := "";
          meatFrequency := None;
          localFoodPercentage := lit 0;
          wasteRecycling := false;
          wasteComposting := false;
          shoppingHabits := {| clothes := lit 50; electronics := lit 50; furniture := lit 50 |};
          waterConsumption := lit 0 |} |}.

(** The state held by the [useState] hooks of [CarbonCalculator]. The two
    step counters only ever hold small integers. *)
Record WizardState : Type := {
  formData : FormData num;
  currentStep : Z;
  subStep : Z;
  showResults : bool;
  progress : num;
  carbonFootprint : option (CarbonFootprintResult num)
}.

Definition initialState : WizardState :=
  {| formData := initialFormData;
     currentStep := 1;
     subStep := 1;
     showResults := false;
     progress := lit 0;
     carbonFootprint := None |}.

Definition getCurrentStepMaxSubSteps (currentStep : Z) : Z :=
  match currentStep with
  | 1 => 3
  | 2 => 3
  | 3 => 3
  | _ => 1
  end.

(** A step counter read as a JavaScript number. *)
Definition of_int (z : Z) : num :=
  if z <? 0 then (lit 0 - lit (inject_Z (- z)))%js else lit (inject_Z z).

(** The value the first [useEffect] stores in [progress]. *)
Definition progressValue (currentStep subStep : Z) : num :=
  let totalSteps := lit 3 in
  let totalSubSteps := of_int (getCurrentStepMaxSubSteps currentStep) in
  (((of_int currentStep - lit 1) * lit 100 + (of_int subStep / totalSubSteps) * lit 100)
   / totalSteps)%js.

Definition progressEffect (st : WizardState) : WizardState :=
  {| formData := formData st;
     currentStep := currentStep st;
     subStep := subStep st;
     showResults := showResults st;
     progress := progressValue (currentStep st) (subStep st);
     carbonFootprint := carbonFootprint st |}.

(** [calculateFinalFootprint] as a state transition: it stores the result
    and switches to the results view. *)
Definition storeFinalFootprint (st : WizardState) : WizardState :=
  {| formData := formData st;
     currentStep := currentStep st;
     subStep := subStep st;
     showResults := true;
     progress := progress st;
     carbonFootprint := Some (calculateFinalFootprint (formData st)) |}.

Definition handleNext (st : WizardState) : WizardState :=
  let maxSubSteps := getCurrentStepMaxSubSteps (currentStep st) in
  if subStep st <? maxSubSteps then
    {| formData := formData st;
       currentStep := currentStep st;
       subStep := subStep st + 1;
       showResults := showResults st;
       progress := progress st;
       carbonFootprint := carbonFootprint st |}
  else if currentStep st <? 3 then
    {| formData := formData st;
       currentStep := currentStep st + 1;
       subStep := 1;
       showResults := showResults st;
       progress := progress st;
       carbonFootprint := carbonFootprint st |}
  else storeFinalFootprint st.

Definition handleBack (st : WizardState) : WizardState :=
  if subStep st >? 1 then
    {| formData := formData st;
       currentStep := currentStep st;
       subStep := subStep st - 1;
       showResults := showResults st;
       progress := progress st;
       carbonFootprint := carbonFootprint st |}
  else if currentStep st >? 1 then
    {| formData := formData st;
       currentStep := currentStep st - 1;
       subStep := getCurrentStepMaxSubSteps (currentStep st);
       showResults := showResults st;
       progress := progress st;
       carbonFootprint := carbonFootprint st |}
  else st.

(** The [onClick] of "Recommencer le calcul". *)
Definition restart (st : WizardState) : WizardState :=
  {| formData := initialFormData;
     currentStep := 1;
     subStep := 1;
     showResults := false;
     progress := progress st;
     carbonFootprint := carbonFootprint st |}.

(** A form control replacing the form record with [setFormData]. *)
Definition setFormData (fd : FormData num) (st : WizardState) : WizardState :=
  {| formData := fd;
     currentStep := currentStep st;
     subStep := subStep st;
     showResults := showResults st;
     progress := progress st;
     carbonFootprint := carbonFootprint st |}.

(** The [disabled] attribute of "Retour" and the caption of the other button. *)
Definition backDisabled (st : WizardState) : bool :=
  (currentStep st =? 1) && (subStep st =? 1).

Definition nextLabel (st : WizardState) : string :=
  if (currentStep st =? 3) && (subStep st =? getCurrentStepMaxSubSteps (currentStep st))
  then "Calculer" else "Suivant".

(** What the user can do. The form card, with its two buttons, is rendered
    only while [showResults] is false; the results card, with its restart
    button, only while it is true and a footprint is stored. A disabled
    button ignores the click. After each event the progress effect runs. *)
Inductive Event : Type :=
| Next
| Back
| Fill (fd : FormData num)
| Restart.

Definition click (st : WizardState) (ev : Event) : WizardState :=
  progressEffect
    match ev with
    | Next => if showResults st then st else handleNext st
    | Back => if showResults st || backDisabled st then st else handleBack st
    | Fill fd => if showResults st then st else setFormData fd st
    | Restart =>
        match showResults st, carbonFootprint st with
        | true, Some _ => restart st
        | _, _ => st
        end
    end.

(** The state after the first render. *)
Definition mounted : WizardState := progressEffect initialState.

Definition run (events : list Event) : WizardState :=
  fold_left click events mounted.

(** The pages of the form, numbered 1 to 9. *)
Definition page (st : WizardState) : Z :=
  3 * (currentStep st - 1) + subStep st.

(** What every reachable state satisfies. *)
Definition settled (st : WizardState) : Prop :=
  (1 <= currentStep st <= 3) /\
  (1 <= subStep st <= 3) /\
  progress st = progressValue (currentStep st) (subStep st) /\
  (showResults st = true ->
   currentStep st = 3 /\ subStep st = 3 /\
   carbonFootprint st = Some (calculateFinalFootprint (formData st))).

End Wizard.

(** ** Further vocabulary *)

Section Updates.
Context {num : Type} `{JsNum num}.
Local Open Scope string_scope.
Local Open Scope js_scope.
Import Js.

Definition with_publicTransportKm (t : TransportData num) (k : num) : TransportData num :=
  {| carType := carType t;
     carKm := carKm t;
     carAge := carAge t;
     carPassengers := carPassengers t;
     publicTransportType := publicTransportType t;
     publicTransportKm := k;
     flightsShortHaul := flightsShortHaul t;
     flightsMediumHaul := flightsMediumHaul t;
     flightsLongHaul := flightsLongHaul t;
     motorcycle := motorcycle t |}.


Definition with_heatingType (e : EnergyData num) (h : string) : EnergyData num :=
  {| homeType := homeType e;
     homeSize := homeSize e;
     occupants := occupants e;
     electricityKwh := electricityKwh e;
     heatingType := h;
     heatingConsumption := heatingConsumption e;
     renewableEnergy := renewableEnergy e;
     renewablePercentage := renewablePercentage e;
     insulation := insulation e |}.

Definition with_insulation (e : EnergyData num) (i : string) : EnergyData num :=
  {| homeType := homeType e;
     homeSize := homeSize e;
     occupants := occupants e;
     electricityKwh := electricityKwh e;
     heatingType := heatingType e;
     heatingConsumption := heatingConsumption e;
     renewableEnergy := renewableEnergy e;
     renewablePercentage := renewablePercentage e;
     insulation := i |}.



Definition with_renewables (e : EnergyData num) (on : bool) (pct : option num)
  : EnergyData num :=
  {| homeType := homeType e;
     homeSize := homeSize e;
     occupants := occupants e;
     electricityKwh := electricityKwh e;
     heatingType := heatingType e;
     heatingConsumption := heatingConsumption e;
     renewableEnergy := on;
     renewablePercentage := pct;
     insulation := insulation e |}.

Definition with_dietType (l : LifestyleData num) (d : string) : LifestyleData num :=
  {| dietType := d;
     meatFrequency := meatFrequency l;
     localFoodPercentage := localFoodPercentage l;
     wasteRecycling := wasteRecycling l;
     wasteComposting := wasteComposting l;
     shoppingHabits := shoppingHabits l;
     waterConsumption := waterConsumption l |}.

Definition with_localFoodPercentage (l : LifestyleData num) (p : num) : LifestyleData num :=
  {| dietType := dietType l;
     meatFrequency := meatFrequency l;
     localFoodPercentage := p;
     wasteRecycling := wasteRecycling l;
     wasteComposting := wasteComposting l;
     shoppingHabits := shoppingHabits l;
     waterConsumption := waterConsumption l |}.

Definition with_shoppingHabits (l : LifestyleData num) (c e f : num) : LifestyleData num :=
  {| dietType := dietType l;
     meatFrequency := meatFrequency l;
     localFoodPercentage := localFoodPercentage l;
     wasteRecycling := wasteRecycling l;
     wasteComposting := wasteComposting l;
     shoppingHabits := {| clothes := c; electronics := e; furniture := f |};
     waterConsumption := waterConsumption l |}.

Definition with_lifestyle (fd : FormData num) (l : LifestyleData num) : FormData num :=
  {| transport := transport fd; energy := energy fd; lifestyle := l |}.

Definition with_energy (fd : FormData num) (e : EnergyData num) : FormData num :=
  {| transport := transport fd; energy := e; lifestyle := lifestyle fd |}.

(** The electricity term of [calculateEnergyEmissions], before insulation. *)
Definition electricityPart (kwh : num) (on : bool) (pct : option num) : num :=
  let electricityEmissions := (kwh / lit 1000) * lit 0.0571 in
  if on && truthy_opt pct then
    electricityEmissions * (lit 1 - of_opt pct / lit 100)
  else electricityEmissions.

(** The sum [calculateEnergyEmissions] multiplies by the insulation factor. *)
Definition energyBeforeInsulation (e : EnergyData num) : num :=
  electricityPart (electricityKwh e) (renewableEnergy e) (renewablePercentage e)
  + (heatingConsumption e
     * to_number (or_else (get ENERGY_CONVERSION_FACTORS (heatingType e)) (VNum (lit 1)))
     / lit 1000)
    * to_number
        (or_else (get [("gas", lit 0.205); ("oil", lit 0.324);
                       ("electric", lit 0.0571); ("heatPump", lit 0.019)] (heatingType e))
                 (get [("gas", lit 0.205); ("oil", lit 0.324);
                       ("electric", lit 0.0571); ("heatPump", lit 0.019)] "electric")).

(** The eleven rules in display order, and the actions a form gets. *)
Definition all_rules : list (Rule (num := num)) :=
  (transport_rules ++ energy_rules ++ lifestyle_rules)%list.

Definition shown_actions (fd : FormData num) : list Action :=
  concat (map actions (getDetailedRecommendations fd)).

End Updates.

(** Keys of the tables. *)
Definition heating_keys : list string :=
  ["gas"; "oil"; "electric"; "heatPump"]%string.

Definition insulation_keys : list string :=
  ["poor"; "medium"; "good"; "excellent"]%string.

Definition diet_keys : list string :=
  ["vegan"; "vegetarian"; "pescatarian"; "flexitarian"; "omnivore"]%string.




Definition dietQ (d : string) : Q :=
  if (d =? "vegan")%string then 1000
  else if (d =? "vegetarian")%string then 1500
  else if (d =? "pescatarian")%string then 1700
  else if (d =? "flexitarian")%string then 2000
  else 2500.






Module Ranges.
Local Open Scope string_scope.

Definition percentage (a : Exact.num) : Prop :=
  Exact.le (lit 0) a /\ Exact.le a (lit 100).



Definition lifestyle_in_range (l : LifestyleData Exact.num) : Prop :=
  Js.inherited (dietType l) = false /\
  percentage (localFoodPercentage l) /\
  percentage (clothes (shoppingHabits l)) /\
  percentage (electronics (shoppingHabits l)) /\
  percentage (furniture (shoppingHabits l)).


End Ranges.

(** ** The terms of the energy sum, and records on which rounding shows *)

Section Terms.
Context {num : Type} `{JsNum num}.
Local Open Scope string_scope.
Local Open Scope js_scope.
Import Js.

(** [heatingEmissions] of [calculateEnergyEmissions]. *)
Definition heatingPart (e : EnergyData num) : num :=
  (heatingConsumption e
   * to_number (or_else (get ENERGY_CONVERSION_FACTORS (heatingType e)) (VNum (lit 1)))
   / lit 1000)
  * to_number
      (or_else (get [("gas", lit 0.205); ("oil", lit 0.324);
                     ("electric", lit 0.0571); ("heatPump", lit 0.019)] (heatingType e))
               (get [("gas", lit 0.205); ("oil", lit 0.324);
                     ("electric", lit 0.0571); ("heatPump", lit 0.019)] "electric")).

(** [insulationMultiplier] of [calculateEnergyEmissions]. *)
Definition insulationMultiplier (e : EnergyData num) : num :=
  to_number
    (or_else (get [("poor", lit 1.3); ("medium", lit 1);
                   ("good", lit 0.8); ("excellent", lit 0.6)] (insulation e))
             (VNum (lit 1))).

(** A new petrol car that has moved 1e-13 km, next to one long-haul flight. *)
Definition barely_driven_car : TransportData num :=
  {| carType := "petrol"; carKm := lit (1 # 10000000000000); carAge := lit 0;
     carPassengers := lit 1;
     publicTransportType := "none"; publicTransportKm := lit 0;
     flightsShortHaul := lit 0; flightsMediumHaul := lit 0; flightsLongHaul := lit 1;
     motorcycle := {| owns := false; type := None; km := None |} |}.

(** A new petrol car driven 8000 km by one person, and no flight. *)
Definition new_petrol_car : TransportData num :=
  {| carType := "petrol"; carKm := lit 8000; carAge := lit 0; carPassengers := lit 1;
     publicTransportType := "none"; publicTransportKm := lit 0;
     flightsShortHaul := lit 0; flightsMediumHaul := lit 0; flightsLongHaul := lit 0;
     motorcycle := {| owns := false; type := None; km := None |} |}.

(** No car, no public transport, and the given numbers of flights. *)
Definition flights_only (short medium long : num) : TransportData num :=
  {| carType := "none"; carKm := lit 0; carAge := lit 0; carPassengers := lit 1;
     publicTransportType := "none"; publicTransportKm := lit 0;
     flightsShortHaul := short; flightsMediumHaul := medium; flightsLongHaul := long;
     motorcycle := {| owns := false; type := None; km := None |} |}.

(** Scenario 2 with 2000 kWh of electricity instead of 6000. *)
Definition small_consumer : EnergyData num :=
  {| homeType := ""; homeSize := lit 0; occupants := lit 1;
     electricityKwh := lit 2000;
     heatingType := "gas"; heatingConsumption := lit 1000;
     renewableEnergy := false; renewablePercentage := None;
     insulation := "medium" |}.

(** A poorly insulated home heated with gas, on a 30 percent renewable
    contract. *)
Definition draughty_home : EnergyData num :=
  {| homeType := ""; homeSize := lit 0; occupants := lit 1;
     electricityKwh := lit 3500;
     heatingType := "gas"; heatingConsumption := lit 1200;
     renewableEnergy := true; renewablePercentage := Some (lit 30);
     insulation := "poor" |}.

(** A whole number as a JavaScript number. *)
Definition whole_number (n : nat) : num := lit (inject_Z (Z.of_nat n)).

(** A car of type [c] driven [k] thousand km a year, [a] years old, with [p]
    people on board, and nothing else. *)
Definition car_only (c : string) (k a p : nat) : TransportData num :=
  {| carType := c; carKm := whole_number (1000 * k); carAge := whole_number a;
     carPassengers := whole_number p;
     publicTransportType := "none"; publicTransportKm := lit 0;
     flightsShortHaul := lit 0; flightsMediumHaul := lit 0; flightsLongHaul := lit 0;
     motorcycle := {| owns := false; type := None; km := None |} |}.

End Terms.

(** ** Checks over grids of whole inputs, run in binary64 *)

(** At one grid point: one more thousand km, one more year and one more
    passenger move the output the right way, the last one strictly unless
    the car is not driven. *)
Definition car_grid_point (c : string) (k a p : nat) : bool :=
  let out := calculateTransportEmissions (num := Binary64.num) in
  PrimFloat.leb (out (car_only c k a p)) (out (car_only c (S k) a p))
  && PrimFloat.leb (out (car_only c k a p)) (out (car_only c k (S a) p))
  && PrimFloat.leb (out (car_only c k a (S p))) (out (car_only c k a p))
  && (Nat.eqb k 0 || PrimFloat.ltb (out (car_only c k a (S p))) (out (car_only c k a p))).

(** Up to 50000 km, 30 years (the largest age the form accepts) and 8
    passengers, for the four car types. *)
Definition car_grid : bool :=
  forallb (fun c =>
    forallb (fun k =>
      forallb (fun a =>
        forallb (fun p => car_grid_point c k a p) (seq 1 8))
      (seq 0 31))
    (seq 0 51))
  ["electric"; "hybrid"; "petrol"; "diesel"]%string.

(** With flights only, the output is the double nearest to the sum of the
    per-flight amounts. *)
Definition flights_grid_point (a b c : nat) : bool :=
  PrimFloat.Leibniz.eqb
    (calculateTransportEmissions (num := Binary64.num)
       (flights_only (whole_number a) (whole_number b) (whole_number c)))
    (lit (0.18 * inject_Z (Z.of_nat a) + 0.4 * inject_Z (Z.of_nat b)
          + 1.8 * inject_Z (Z.of_nat c))).

(** Up to 20 flights of each class. *)
Definition flights_grid : bool :=
  forallb (fun a =>
    forallb (fun b =>
      forallb (fun c => flights_grid_point a b c) (seq 0 21))
    (seq 0 21))
  (seq 0 21).

(** * Properties *)

Local Open Scope string_scope.
Local Open Scope list_scope.

Ltac cases_of H :=
  cbn in H;
  repeat (destruct H as [H | H]; [symmetry in H; subst |]);
  try contradiction.

Ltac evaluate := vm_compute; reflexivity.

(** ** The binary64 literals *)

(** The literals of the tables, produced by [Binary64.of_decimal], are the
    doubles a correctly rounding parser yields. *)
Lemma literals_are_correctly_rounded :
  lit (num := Binary64.num) 0.192 = 0.192%float /\
  lit (num := Binary64.num) 0.0571 = 0.0571%float /\
  lit (num := Binary64.num) 10.55 = 10.55%float /\
  lit (num := Binary64.num) 0.002 = 0.002%float /\
  lit (num := Binary64.num) 0.95 = 0.95%float /\
  lit (num := Binary64.num) 2500 = 2500%float.
Proof. repeat split. Qed.

(** ** Facts about the exact semantics *)

Section ExactFacts.
Import Exact.
Local Open Scope Q_scope.

Lemma lit_Fin (q : Q) : lit q = Fin (Qred q).
Proof. reflexivity. Qed.

Lemma add_Fin (x y : Q) : (Fin x + Fin y)%js = Fin (Qred (x + y)).
Proof. reflexivity. Qed.

Lemma mul_Fin (x y : Q) : (Fin x * Fin y)%js = Fin (Qred (x * y)).
Proof. reflexivity. Qed.

Lemma sub_Fin (x y : Q) : (Fin x - Fin y)%js = Fin (Qred (x - y)).
Proof. reflexivity. Qed.


Lemma max_Fin (x y : Q) : Math_max (Fin x) (Fin y) = Fin (Qred (Qmax x y)).
Proof. reflexivity. Qed.

Lemma div_Fin (x y : Q) : ~ y == 0 -> (Fin x / Fin y)%js = Fin (Qred (x / y)).
Proof.
  intro Hy. cbn [div exact qdiv].
  destruct (Qeq_bool y 0) eqn:E; [| reflexivity].
  apply Qeq_bool_iff in E. contradiction.
Qed.

Lemma le_finite_l a b : le a b -> finite a.
Proof. destruct a, b; cbn [le lt finite]; tauto. Qed.


Lemma lt_finite_r a b : lt a b -> finite b.
Proof. destruct a, b; cbn [le lt finite]; tauto. Qed.








End ExactFacts.

(** ** The car term *)

Section CarFacts.
Import Exact.
Local Open Scope Q_scope.














End CarFacts.

(** ** The transport calculator around the car term *)

Section TransportFacts.
Import Exact Domain.
Local Open Scope string_scope.






Section AfterCar.
Variable t : TransportData num.
Hypothesis Hpt : In (publicTransportType t) [""; "none"; "bus"; "train"; "tram"; "subway"].
Hypothesis Hkm : finite (publicTransportKm t).
Hypothesis Hfs : finite (flightsShortHaul t).
Hypothesis Hfm : finite (flightsMediumHaul t).
Hypothesis Hfl : finite (flightsLongHaul t).


End AfterCar.


End TransportFacts.

(** ** The lifestyle calculator *)

Section LifestyleFacts.
Import Exact Domain.


Lemma lifestyle_value (l : LifestyleData num) (d lf c e f : Q) :
  dietBaseline (dietType l) = Fin d ->
  localFoodPercentage l = Fin lf ->
  clothes (shoppingHabits l) = Fin c ->
  electronics (shoppingHabits l) = Fin e ->
  furniture (shoppingHabits l) = Fin f ->
  exists v, calculateLifestyleEmissions l = Fin v /\
            (v == lifestyleQ (wasteRecycling l) (wasteComposting l) d lf c e f)%Q.
Proof.
  intros Hd Hlf Hc He Hf. unfold calculateLifestyleEmissions.
  change (Js.to_number (Js.or_else (Js.get EMISSIONS_FACTORS.diet (dietType l))
                                   (Js.VNum EMISSIONS_FACTORS.diet_omnivore)))
    with (dietBaseline (num := Exact.num) (dietType l)).
  rewrite Hd, Hlf, Hc, He, Hf. cbv zeta.
  rewrite !lit_Fin, !mul_Fin, sub_Fin, mul_Fin, !add_Fin, mul_Fin.
  rewrite div_Fin by (rewrite Qred_correct; discriminate).
  rewrite !add_Fin.
  unfold lifestyleQ.
  destruct (wasteRecycling l), (wasteComposting l); rewrite ?mul_Fin;
    (eexists; split; [reflexivity |]); rewrite !Qred_correct; field.
Qed.


End LifestyleFacts.

(** ** The rule table of the recommendation engine *)

Section RuleTable.
Context {num : Type} `{JsNum num}.

Lemma fired_cons (p : FormData num -> bool) (a : Action) (rules : list (Rule (num:=num))) fd :
  fired ((p, a) :: rules) fd = (if p fd then [a] else []) ++ fired rules fd.
Proof. unfold fired; cbn. destruct (p fd); reflexivity. Qed.

Lemma fired_nil (fd : FormData num) : fired [] fd = [].
Proof. reflexivity. Qed.

Lemma push_when {A : Type} (c : bool) (arr : list A) (x : A) :
  (if c then push arr x else arr) = arr ++ (if c then [x] else []).
Proof. destruct c; [reflexivity | now rewrite app_nil_r]. Qed.

Lemma push_sector (name : string) (acts : list Action) (done : list Recommendation) :
  (if (0 <? length acts)%nat then push done {| category := name; actions := acts |} else done)
  = done ++ filter has_action [ {| category := name; actions := acts |} ].
Proof.
  destruct acts; cbn.
  - now rewrite app_nil_r.
  - reflexivity.
Qed.

Lemma filter_three (a b c : Recommendation) :
  filter has_action [a; b; c]
  = ((([] ++ filter has_action [a]) ++ filter has_action [b]) ++ filter has_action [c]).
Proof. cbn. destruct (has_action a), (has_action b), (has_action c); reflexivity. Qed.

Lemma recommendations_follow_rules (fd : FormData num) :
  getDetailedRecommendations fd = recommendations_by_rules fd.
Proof.
  unfold getDetailedRecommendations, recommendations_by_rules, sector.
  cbv zeta.
  rewrite !push_sector, !push_when, filter_three.
  unfold transport_rules, energy_rules, lifestyle_rules.
  rewrite !fired_cons, !fired_nil, !app_nil_r.
  cbn [app]. rewrite <- !app_assoc.
  reflexivity.
Qed.
End RuleTable.

Lemma twenty_thousand_exceeds_threshold (s : semantics) :
  (lit (num := number s) 20000 > lit 15000)%js = true.
Proof. destruct s; vm_compute; reflexivity. Qed.

(** ** Neutral inputs *)

Lemma neutral_transport_is_zero (s : semantics) (t : TransportData (number s)) :
  neutral_transport t -> calculateTransportEmissions t = lit 0.
Proof.
  destruct t as [ct ck ca cp pt pk fs fm fl m]; unfold neutral_transport; cbn.
  intros (-> & -> & -> & _ & Hpt & -> & -> & -> & -> & _).
  destruct Hpt as [<- | [<- | []]]; destruct s; evaluate.
Qed.

Lemma neutral_energy_is_zero (s : semantics) (e : EnergyData (number s)) :
  neutral_energy e -> calculateEnergyEmissions e = lit 0.
Proof.
  destruct e as [ht hs oc el he hc re rp ins]; unfold neutral_energy; cbn.
  intros (_ & _ & -> & Hhe & -> & Hrp & Hins).
  destruct Hrp as [-> | ->];
    cases_of Hhe; cases_of Hins; destruct re; destruct s; evaluate.
Qed.

Lemma neutral_lifestyle_is_diet (s : semantics) (l : LifestyleData (number s)) :
  neutral_lifestyle l ->
  calculateLifestyleEmissions l
  = wasteReductions (wasteRecycling l) (wasteComposting l)
      (dietBaseline (dietType l) / lit 1000)%js /\
  ((lit 0 + lit 0 + calculateLifestyleEmissions l)%js = calculateLifestyleEmissions l /\
   (lit 0 < calculateLifestyleEmissions l)%js = true).
Proof.
  destruct l as [dt mf lf wr wc [c e f] w]; unfold neutral_lifestyle; cbn.
  intros (Hdt & _ & -> & -> & -> & -> & _).
  cases_of Hdt; destruct wr, wc; destruct s; repeat split; evaluate.
Qed.

Lemma neutral_example_is_neutral (s : semantics) : neutral (neutral_example (num := number s)).
Proof.
  unfold neutral, neutral_transport, neutral_energy, neutral_lifestyle, zero_or_absent;
    cbn; intuition.
Qed.

(** ** Unknown categories *)

Lemma absent_key_is_not_a_number (obj : list (string * Exact.num)) (key : string) :
  Js.own obj key = None -> Js.to_number (Js.get obj key) = Exact.NaN.
Proof.
  intro Hown. unfold Js.get. rewrite Hown. now destruct (Js.inherited key).
Qed.

Lemma unknown_car_type_is_not_a_number (t : TransportData Exact.num) :
  carType t <> "" ->
  Js.own (num := Exact.num) EMISSIONS_FACTORS.car (carType t) = None ->
  calculateTransportEmissions t = Exact.NaN.
Proof.
  intros Hne Hown. unfold calculateTransportEmissions.
  rewrite (absent_key_is_not_a_number _ _ Hown).
  assert (Htaken : Js.truthy_str (carType t) && negb (carType t =? "none") = true).
  { apply andb_true_intro; split.
    - unfold Js.truthy_str. apply negb_true_iff, String.eqb_neq, Hne.
    - apply negb_true_iff. unfold EMISSIONS_FACTORS.car in Hown. cbn [Js.own] in Hown.
      repeat match type of Hown with
             | (if ?c then _ else _) = None => destruct c; [discriminate Hown |]
             end.
      reflexivity. }
  rewrite Htaken. clear Htaken. cbv zeta.
  destruct (carKm t); destruct (_ && _); reflexivity.
Qed.

(** * Main results *)

Import Exact Domain.

(** C1 (as amended). For every input whose numeric fields are all 0 and
    whose categorical fields are "none" or a neutral default, the transport
    and energy outputs are 0 and the total is the lifestyle output: the diet
    baseline in tonnes (2.5 for the default diet), reduced by 0.9 and 0.95
    when recycling and composting are on. It is strictly positive, in exact
    arithmetic and in binary64. *)
Theorem neutral_input_total_is_diet_baseline :
  forall (s : semantics) (fd : FormData (number s)),
    neutral fd ->
    calculateTransportEmissions (transport fd) = lit 0 /\
    calculateEnergyEmissions (energy fd) = lit 0 /\
    total (calculateFinalFootprint fd) = calculateLifestyleEmissions (lifestyle fd) /\
    calculateLifestyleEmissions (lifestyle fd)
    = wasteReductions (wasteRecycling (lifestyle fd)) (wasteComposting (lifestyle fd))
        (dietBaseline (dietType (lifestyle fd)) / lit 1000)%js /\
    (lit 0 < total (calculateFinalFootprint fd))%js = true.
Proof.
  intros s fd (Ht & He & Hl).
  apply neutral_transport_is_zero in Ht.
  apply neutral_energy_is_zero in He.
  apply neutral_lifestyle_is_diet in Hl.
  destruct Hl as (Hdiet & Hsum & Hpos).
  assert (Htotal : total (calculateFinalFootprint fd)
                   = calculateLifestyleEmissions (lifestyle fd)).
  { unfold calculateFinalFootprint; cbn [total]. now rewrite Ht, He. }
  repeat split; try assumption.
  now rewrite Htotal.
Qed.

Lemma neutral_input_total_is_diet_baseline_witness :
  total (calculateFinalFootprint (neutral_example (num := number binary64_arithmetic)))
  = calculateLifestyleEmissions (lifestyle neutral_example).
Proof.
  refine (proj1 (proj2 (proj2
    (@neutral_input_total_is_diet_baseline binary64_arithmetic neutral_example _)))).
  unfold neutral, neutral_transport, neutral_energy, neutral_lifestyle, zero_or_absent.
  cbn. tauto.
Defined.

(** C1 as stated fails: on the initial form with the shopping sliders at 0
    the total is 2.5 tonnes, not 0. *)
Lemma neutral_input_total_is_not_zero :
  neutral (neutral_example (num := Exact.num)) /\
  total (calculateFinalFootprint (neutral_example (num := Exact.num))) = lit 2.5 /\
  total (calculateFinalFootprint (neutral_example (num := Exact.num))) <> lit 0 /\
  total (calculateFinalFootprint (neutral_example (num := Binary64.num))) = lit 2.5 /\
  PrimFloat.eqb (total (calculateFinalFootprint (neutral_example (num := Binary64.num))))
                (lit 0) = false.
Proof.
  split; [exact (neutral_example_is_neutral exact_arithmetic) |].
  repeat split; try evaluate.
  vm_compute. discriminate.
Qed.

(** C2. The code at an unknown category: with carType = "bicycle", or with
    publicTransportType = "ferry", the transport calculator returns NaN,
    where the "none" branch returns 0. Exact arithmetic and binary64 agree. *)
Theorem unknown_transport_category_is_not_a_number :
  forall (s : semantics) (m : Motorcycle (number s)),
    calculateTransportEmissions (with_carType (scenario1 m) "none") = lit 0 /\
    calculateTransportEmissions (with_carType (scenario1 m) "bicycle") = nan /\
    calculateTransportEmissions
      (with_publicTransportType (with_carType (scenario1 m) "none") "ferry") = nan.
Proof.
  intros [] m; repeat split; evaluate.
Qed.

(** C3. With electricityKwh = 6000, heatingType = gas, heatingConsumption =
    1000, insulation = medium and renewables disabled, the energy calculator
    returns 0.3426 + 2.16275 = 2.50535 tonnes, in exact arithmetic and in
    binary64 alike. *)
Theorem scenario2_energy :
  forall (s : semantics) (home : string) (size occ : number s) (pct : option (number s)),
    calculateEnergyEmissions (scenario2 home size occ pct) = lit 2.50535 /\
    (lit (num := number s) 6000 / lit 1000 * lit 0.0571)%js = lit 0.3426 /\
    (lit (num := number s) 1000 * lit 10.55 / lit 1000 * lit 0.205)%js = lit 2.16275 /\
    (lit (num := number s) 0.3426 + lit 2.16275)%js = lit 2.50535.
Proof.
  intros [] home size occ pct; repeat split; evaluate.
Qed.

(** C4. The recommendation engine is its rule table: in each sector the
    threshold predicates are evaluated independently, each true predicate
    contributes its action in declaration order, and a sector is listed only
    when at least one predicate fired, so no listed sector is empty. With
    carKm = 20000 and carType = petrol the Transport sector comes first and
    holds the high-distance action, then (if there are long-haul flights)
    the flight action, then the vehicle action. *)
Theorem recommendations_by_declared_rules :
  forall (s : semantics) (fd : FormData (number s)),
    getDetailedRecommendations fd = recommendations_by_rules fd /\
    (forall r, In r (getDetailedRecommendations fd) -> actions r <> []) /\
    exists rest,
      getDetailedRecommendations (scenario4 fd)
      = {| category := "Transport";
           actions := Actions.reduce_car
                      :: (if (flightsLongHaul (transport fd) > lit 0)%js
                          then [Actions.optimise_flights] else [])
                      ++ [Actions.greener_vehicle] |} :: rest.
Proof.
  intros s fd. split; [| split].
  - apply recommendations_follow_rules.
  - intros r Hin. rewrite recommendations_follow_rules in Hin.
    apply filter_In in Hin as [_ Hfired].
    unfold has_action in Hfired. destruct (actions r); discriminate.
  - rewrite recommendations_follow_rules.
    unfold recommendations_by_rules, sector at 1, transport_rules.
    rewrite !fired_cons. unfold fired; cbn [filter map]. rewrite app_nil_r.
    cbn [scenario4 transport with_carType with_carKm carKm carType flightsLongHaul].
    rewrite twenty_thousand_exceeds_threshold.
    cbn [String.eqb Ascii.eqb Bool.eqb orb app filter has_action actions].
    eexists. reflexivity.
Qed.

Lemma recommendations_by_declared_rules_witness :
  exists rest,
    getDetailedRecommendations (num := Binary64.num) (scenario4 neutral_example)
    = {| category := "Transport";
         actions := [Actions.reduce_car; Actions.greener_vehicle] |} :: rest.
Proof.
  exact (proj2 (proj2
    (recommendations_by_declared_rules binary64_arithmetic neutral_example))).
Defined.

(** C5. With carType = petrol, carKm = 20000, carAge = 5, carPassengers = 1
    and every other field zero or none, the transport calculator returns
    4.224 tonnes: exactly so over the rationals, and the binary64 result is
    the double written 4.224. *)
Theorem scenario1_transport :
  forall (s : semantics) (m : Motorcycle (number s)),
    calculateTransportEmissions (scenario1 m) = lit 4.224 /\
    (lit (num := number s) 20000 * lit 0.192 * (lit 1 + lit 5 * lit 0.02) / lit 1 / lit 1000)%js
    = lit 4.224.
Proof.
  intros [] m; split; evaluate.
Qed.




(** C7 (as amended). With both waste flags on, the lifestyle output is the
    output with both flags off multiplied by 0.9 and then by 0.95, in either
    semantics. In exact arithmetic this is 0.855 times the output with both
    flags off, and the order of the two reductions does not matter. *)
Theorem waste_reductions_multiply :
  (forall (s : semantics) (l : LifestyleData (number s)),
      calculateLifestyleEmissions (with_waste l true true)
      = (calculateLifestyleEmissions (with_waste l false false) * lit 0.9 * lit 0.95)%js) /\
  (forall l : LifestyleData Exact.num,
      calculateLifestyleEmissions (with_waste l true true)
      = (lit 0.855 * calculateLifestyleEmissions (with_waste l false false))%js /\
      (calculateLifestyleEmissions (with_waste l false false) * lit 0.9 * lit 0.95)%js
      = (calculateLifestyleEmissions (with_waste l false false) * lit 0.95 * lit 0.9)%js).
Proof.
  split.
  - intros s l. reflexivity.
  - intro l.
    change (calculateLifestyleEmissions (with_waste l true true))
      with (calculateLifestyleEmissions (with_waste l false false) * lit 0.9 * lit 0.95)%js.
    destruct (calculateLifestyleEmissions (with_waste l false false)) as [x |];
      [| split; reflexivity].
    split; rewrite !lit_Fin, !mul_Fin; f_equal; apply Qred_complete;
      rewrite !Qred_correct; ring.
Qed.

(** C7 as stated fails in binary64: for an omnivore with no local food and
    no purchases the two reductions give 2.1374999999999997, whereas 0.855
    times the unreduced 2.5 is 2.1375000000000002. *)
Lemma waste_reductions_round_in_binary64 :
  calculateLifestyleEmissions (num := Binary64.num) (with_waste plain_omnivore true true)
  <> (lit 0.855 * calculateLifestyleEmissions (with_waste plain_omnivore false false))%js.
Proof.
  intro Heq.
  apply (f_equal (fun x => PrimFloat.eqb x
           (lit 0.855 * calculateLifestyleEmissions (num := Binary64.num)
                          (with_waste plain_omnivore false false))%js)) in Heq.
  vm_compute in Heq. discriminate.
Qed.

(** C8. For every input the total is the sum of the three sector outputs,
    the breakdown holds those outputs, and the comparison block holds
    (total - 9.0) / 9.0 * 100 and (total - 4.7) / 4.7 * 100 next to the two
    averages 9.0 and 4.7. *)
Theorem final_footprint_is_sum_with_comparison :
  forall (num : Type) (N : JsNum num) (fd : FormData num),
    total (calculateFinalFootprint fd)
    = (calculateTransportEmissions (transport fd)
       + calculateEnergyEmissions (energy fd)
       + calculateLifestyleEmissions (lifestyle fd))%js /\
    Breakdown.transport (breakdown (calculateFinalFootprint fd))
    = calculateTransportEmissions (transport fd) /\
    Breakdown.energy (breakdown (calculateFinalFootprint fd))
    = calculateEnergyEmissions (energy fd) /\
    Breakdown.lifestyle (breakdown (calculateFinalFootprint fd))
    = calculateLifestyleEmissions (lifestyle fd) /\
    percentageFromNational (comparison (calculateFinalFootprint fd))
    = ((total (calculateFinalFootprint fd) - lit 9.0) / lit 9.0 * lit 100)%js /\
    percentageFromWorld (comparison (calculateFinalFootprint fd))
    = ((total (calculateFinalFootprint fd) - lit 4.7) / lit 4.7 * lit 100)%js /\
    nationalAverage (comparison (calculateFinalFootprint fd)) = lit 9.0 /\
    worldAverage (comparison (calculateFinalFootprint fd)) = lit 4.7.
Proof.
  intros num N fd. repeat split.
Qed.

(** C9. Two inputs that differ only in the motorcycle block, home type,
    home size, occupants, meat frequency and water consumption get the same
    output from every sector calculator, from the aggregator and from the
    recommendation engine. *)
Theorem unused_fields_do_not_interfere :
  forall (num : Type) (N : JsNum num) (a b : FormData num),
    differ_only_in_unused a b ->
    calculateTransportEmissions (transport a) = calculateTransportEmissions (transport b) /\
    calculateEnergyEmissions (energy a) = calculateEnergyEmissions (energy b) /\
    calculateLifestyleEmissions (lifestyle a) = calculateLifestyleEmissions (lifestyle b) /\
    calculateFinalFootprint a = calculateFinalFootprint b /\
    getDetailedRecommendations a = getDetailedRecommendations b.
Proof.
  intros num N [[] [] []] [[] [] []] Hsame.
  unfold differ_only_in_unused in Hsame; cbn in Hsame.
  repeat match goal with H : _ /\ _ |- _ => destruct H end.
  subst. repeat split.
Qed.

Lemma unused_fields_do_not_interfere_witness :
  calculateFinalFootprint (num := Binary64.num) neutral_example
  = calculateFinalFootprint (num := Binary64.num) furnished_example /\
  getDetailedRecommendations (num := Binary64.num) neutral_example
  = getDetailedRecommendations (num := Binary64.num) furnished_example.
Proof.
  refine ((fun H => conj (proj1 (proj2 (proj2 (proj2 H)))) (proj2 (proj2 (proj2 (proj2 H)))))
            (@unused_fields_do_not_interfere Binary64.num Binary64.binary64
               neutral_example furnished_example _)).
  unfold differ_only_in_unused. cbn. repeat split.
Defined.




(** * Further properties *)

(** ** The wizard *)

Section WizardFacts.
Context {num : Type} `{JsNum num}.
Local Open Scope Z_scope.

Lemma in_bounds_cases (c : Z) : 1 <= c <= 3 -> c = 1 \/ c = 2 \/ c = 3.
Proof. lia. Qed.

Lemma mounted_settled : settled mounted.
Proof.
  unfold settled, mounted; cbn. repeat split; try lia; discriminate.
Qed.

Lemma click_settled (st : WizardState) (ev : Event) :
  settled st -> settled (click st ev).
Proof.
  intros (Hc & Hs & Hp & Hr).
  destruct st as [fd c s r p cf]; cbn in *.
  apply in_bounds_cases in Hc, Hs.
  destruct r.
  - destruct (Hr eq_refl) as (-> & -> & ->).
    destruct ev; unfold settled; cbn; repeat split; try lia; try discriminate.
  - destruct Hc as [-> | [-> | ->]], Hs as [-> | [-> | ->]];
      destruct ev; unfold settled; cbn; repeat split; try lia; try discriminate.
Qed.

Lemma fold_click_settled (events : list Event) (st : WizardState) :
  settled st -> settled (fold_left click events st).
Proof.
  revert st. induction events as [| ev events IH]; intros st Hst; cbn.
  - assumption.
  - apply IH, click_settled, Hst.
Qed.

Lemma run_settled (events : list Event) : settled (run events).
Proof. apply fold_click_settled, mounted_settled. Qed.

End WizardFacts.

(** X1. The step counters never leave 1..3, whatever the user clicks, and the
    progress value is the one of the page shown. *)
Theorem wizard_steps_stay_in_range :
  forall (num : Type) (N : JsNum num) (events : list (Event (num := num))),
    (1 <= currentStep (run events) <= 3)%Z /\
    (1 <= subStep (run events) <= 3)%Z /\
    (1 <= page (run events) <= 9)%Z /\
    progress (run events)
    = progressValue (currentStep (run events)) (subStep (run events)).
Proof.
  intros num N events.
  destruct (run_settled events) as (Hc & Hs & Hp & _).
  unfold page. repeat split; try lia. exact Hp.
Qed.

(** X2. Whenever the results view is shown, the stored footprint is the one of
    the form as it is stored now: no stale result is displayed. *)
Theorem shown_result_is_current :
  forall (num : Type) (N : JsNum num) (events : list (Event (num := num))),
    showResults (run events) = true ->
    carbonFootprint (run events) = Some (calculateFinalFootprint (formData (run events))).
Proof.
  intros num N events Hshown.
  destruct (run_settled events) as (_ & _ & _ & Hr).
  apply Hr, Hshown.
Qed.

Lemma shown_result_is_current_witness :
  carbonFootprint (run (num := Binary64.num) (repeat Next 9))
  = Some (calculateFinalFootprint (formData (run (repeat Next 9)))).
Proof.
  apply (@shown_result_is_current Binary64.num Binary64.binary64 (repeat Next 9)).
  vm_compute. reflexivity.
Defined.

(** X3. On the form, "Retour" undoes "Suivant" and "Suivant" undoes "Retour",
    except on the last and on the first page. *)
Theorem back_undoes_next :
  forall (num : Type) (N : JsNum num) (events : list (Event (num := num))),
    showResults (run events) = false ->
    ((page (run events) < 9)%Z ->
     click (click (run events) Next) Back = run events) /\
    ((1 < page (run events))%Z ->
     click (click (run events) Back) Next = run events).
Proof.
  intros num N events Hform.
  destruct (run_settled events) as (Hc & Hs & Hp & _).
  destruct (run events) as [fd c s r p cf]; cbn in *. subst r p.
  apply in_bounds_cases in Hc, Hs. unfold page; cbn.
  destruct Hc as [-> | [-> | ->]], Hs as [-> | [-> | ->]];
    split; intro Hpage; try (vm_compute in Hpage; discriminate Hpage); reflexivity.
Qed.

Lemma back_undoes_next_witness :
  click (click (run (num := Binary64.num) [Next]) Next) Back = run [Next].
Proof.
  refine (proj1 (@back_undoes_next Binary64.num Binary64.binary64 [Next] _) _).
  - vm_compute. reflexivity.
  - vm_compute. reflexivity.
Defined.



(** X5. The captions agree with the behaviour: the button reads "Calculer"
    exactly when clicking it shows the results, and "Retour" is disabled
    exactly when clicking it would change nothing. *)
Theorem captions_match_behaviour :
  forall (num : Type) (N : JsNum num) (events : list (Event (num := num))),
    showResults (run events) = false ->
    (nextLabel (run events) = "Calculer"%string
     <-> showResults (click (run events) Next) = true) /\
    (backDisabled (run events) = true
     <-> handleBack (run events) = run events).
Proof.
  intros num N events Hform.
  destruct (run_settled events) as (Hc & Hs & _).
  destruct (run events) as [fd c s r p cf]; cbn in *. subst r.
  apply in_bounds_cases in Hc, Hs.
  destruct Hc as [-> | [-> | ->]], Hs as [-> | [-> | ->]]; cbn;
    split; split; intro Heq; try reflexivity; try discriminate Heq;
    try (apply (f_equal (@currentStep num)) in Heq; cbn in Heq; discriminate Heq);
    try (apply (f_equal (@subStep num)) in Heq; cbn in Heq; discriminate Heq).
Qed.

Lemma captions_match_behaviour_witness :
  nextLabel (run (num := Binary64.num) (repeat Next 8)) = "Calculer"%string
  <-> showResults (click (run (num := Binary64.num) (repeat Next 8)) Next) = true.
Proof.
  refine (proj1 (@captions_match_behaviour Binary64.num Binary64.binary64 (repeat Next 8) _)).
  vm_compute. reflexivity.
Defined.

(** X6. The progress bar: in both semantics it is positive, grows with every
    "Suivant" on the form, never exceeds 100 and is exactly 100 on the last
    page; in exact arithmetic it shows 100 * p / 9 on page p. *)
Theorem progress_follows_pages :
  (forall (s : semantics) (events : list (Event (num := number s))),
      (lit 0 < progress (run events))%js = true /\
      (lit 100 < progress (run events))%js = false /\
      (page (run events) = 9%Z -> progress (run events) = lit 100) /\
      (showResults (run events) = false -> (page (run events) < 9)%Z ->
       (progress (run events) < progress (click (run events) Next))%js = true)) /\
  (forall events : list (Event (num := Exact.num)),
      progress (run events) = lit (100 * inject_Z (page (run events)) / 9)).
Proof.
  split.
  - intros s events.
    destruct (run_settled events) as (Hc & Hs & Hp & _).
    destruct (run events) as [fd c r0 r p cf]; cbn in Hc, Hs, Hp. subst p.
    apply in_bounds_cases in Hc, Hs.
    repeat split.
    + destruct Hc as [-> | [-> | ->]], Hs as [-> | [-> | ->]]; destruct s; evaluate.
    + destruct Hc as [-> | [-> | ->]], Hs as [-> | [-> | ->]]; destruct s; evaluate.
    + intro Hpage.
      destruct Hc as [-> | [-> | ->]], Hs as [-> | [-> | ->]];
        vm_compute in Hpage; try discriminate Hpage; destruct s; evaluate.
    + intros Hform Hpage. cbn in Hform. subst r.
      destruct Hc as [-> | [-> | ->]], Hs as [-> | [-> | ->]];
        vm_compute in Hpage; try discriminate Hpage; destruct s; evaluate.
  - intro events.
    destruct (run_settled events) as (Hc & Hs & Hp & _).
    destruct (run events) as [fd c r0 r p cf]; cbn in Hc, Hs, Hp. subst p.
    apply in_bounds_cases in Hc, Hs.
    destruct Hc as [-> | [-> | ->]], Hs as [-> | [-> | ->]]; evaluate.
Qed.

Lemma progress_follows_pages_witness :
  (progress (run (num := Binary64.num) [Next])
   < progress (click (run [Next]) Next))%js = true.
Proof.
  refine (proj2 (proj2 (proj2
    (proj1 progress_follows_pages binary64_arithmetic [Next]))) _ _).
  - vm_compute. reflexivity.
  - vm_compute. reflexivity.
Defined.

(** ** Table lookups resolved *)

Section Lookups.
Import Exact Js.
Local Open Scope string_scope.


Lemma inherited_In (k : string) : inherited k = true -> In k prototype_keys.
Proof.
  unfold inherited. rewrite existsb_exists.
  intros (x & Hin & Heq). apply String.eqb_eq in Heq. now subst.
Qed.

Lemma not_In_eqb (k x : string) (l : list string) :
  ~ In k (x :: l) -> (k =? x) = false /\ ~ In k l.
Proof.
  intro Hnot. split.
  - apply String.eqb_neq. intro Heq. apply Hnot. left. now symmetry.
  - intro Hin. apply Hnot. now right.
Qed.



Lemma diet_resolution (d : string) :
  inherited d = false -> dietBaseline (num := Exact.num) d = lit (dietQ d).
Proof.
  intro Hd. unfold dietBaseline, get, EMISSIONS_FACTORS.diet, dietQ. cbn [own].
  repeat match goal with
         | |- context [if (d =? ?k) then _ else _] =>
             let E := fresh "E" in
             destruct (d =? k) eqn:E;
             [apply String.eqb_eq in E; subst d; reflexivity |]
         end.
  rewrite Hd. reflexivity.
Qed.




Lemma dietQ_bounds (d : string) : (1000 <= dietQ d <= 2500)%Q.
Proof. unfold dietQ. repeat destruct (_ =? _); split; discriminate. Qed.

End Lookups.

(** ** The energy calculator in closed form *)

Section EnergyFacts.
Import Exact Js.
Local Open Scope string_scope.






End EnergyFacts.

(** ** Energy: fallbacks, insulation, renewable share *)

Section GenericLookups.
Context {num : Type} `{JsNum num}.

Lemma own_absent (obj : list (string * num)) (key : string) :
  ~ In key (map fst obj) -> Js.own obj key = None.
Proof.
  induction obj as [| [k v] obj IH]; cbn; intro Hnot; [reflexivity |].
  destruct (String.eqb key k) eqn:E.
  - apply String.eqb_eq in E. exfalso. apply Hnot. left. now symmetry.
  - apply IH. intro Hin. apply Hnot. now right.
Qed.

Lemma get_absent (obj : list (string * num)) (key : string) :
  ~ In key (map fst obj) -> Js.inherited key = false -> Js.get obj key = Js.VUndefined.
Proof.
  intros Hnot Hinh. unfold Js.get. now rewrite (own_absent obj key Hnot), Hinh.
Qed.

End GenericLookups.

(** X7. A heating type outside the table that is not an inherited name is
    computed exactly like "electric", and such an insulation level exactly
    like "medium", in both semantics. *)
Theorem unknown_energy_categories_use_defaults :
  forall (s : semantics) (e : EnergyData (number s)) (k : string),
    Js.inherited k = false ->
    (~ In k heating_keys ->
     calculateEnergyEmissions (with_heatingType e k)
     = calculateEnergyEmissions (with_heatingType e "electric")) /\
    (~ In k insulation_keys ->
     calculateEnergyEmissions (with_insulation e k)
     = calculateEnergyEmissions (with_insulation e "medium")).
Proof.
  intros s e k Hinh. split; intro Hnot.
  - unfold calculateEnergyEmissions.
    cbn [with_heatingType heatingType electricityKwh heatingConsumption renewableEnergy
         renewablePercentage insulation].
    rewrite !(@get_absent _ _ k) by assumption.
    destruct s; reflexivity.
  - unfold calculateEnergyEmissions.
    cbn [with_insulation heatingType electricityKwh heatingConsumption renewableEnergy
         renewablePercentage insulation].
    rewrite !(@get_absent _ _ k) by assumption.
    destruct s; reflexivity.
Qed.

Lemma unknown_energy_categories_use_defaults_witness :
  calculateEnergyEmissions
    (with_heatingType (scenario2 (num := Binary64.num) "" (lit 0) (lit 1) None) "wood")
  = calculateEnergyEmissions (with_heatingType (scenario2 "" (lit 0) (lit 1) None) "electric").
Proof.
  refine (proj1 (@unknown_energy_categories_use_defaults binary64_arithmetic
                   (scenario2 "" (lit 0) (lit 1) None) "wood" _) _).
  - vm_compute. reflexivity.
  - vm_compute. intuition discriminate.
Defined.

Section EnergyLaws.
Import Exact Js.
Local Open Scope string_scope.

Lemma energy_split (e : EnergyData num) :
  calculateEnergyEmissions e
  = (energyBeforeInsulation e
     * to_number
         (or_else (get [("poor", lit 1.3); ("medium", lit 1);
                        ("good", lit 0.8); ("excellent", lit 0.6)] (insulation e))
                  (VNum (lit 1))))%js.
Proof. reflexivity. Qed.

Lemma scale_by (x : num) (q : Q) : (x * lit q)%js = (lit q * (x * lit 1))%js.
Proof.
  destruct x as [x |]; [| reflexivity].
  rewrite !lit_Fin, !mul_Fin. f_equal. apply Qred_complete.
  rewrite !Qred_correct. ring.
Qed.

End EnergyLaws.

(** X8. Insulation scales the whole energy output: in exact arithmetic poor
    insulation gives 1.3 times, good 0.8 times and excellent 0.6 times the
    output computed with medium insulation, for every input. *)
Theorem insulation_scales_energy :
  forall e : EnergyData Exact.num,
    calculateEnergyEmissions (with_insulation e "poor")
    = (lit 1.3 * calculateEnergyEmissions (with_insulation e "medium"))%js /\
    calculateEnergyEmissions (with_insulation e "good")
    = (lit 0.8 * calculateEnergyEmissions (with_insulation e "medium"))%js /\
    calculateEnergyEmissions (with_insulation e "excellent")
    = (lit 0.6 * calculateEnergyEmissions (with_insulation e "medium"))%js.
Proof.
  intro e. rewrite !energy_split.
  change (energyBeforeInsulation (with_insulation e "poor")) with (energyBeforeInsulation e).
  change (energyBeforeInsulation (with_insulation e "good")) with (energyBeforeInsulation e).
  change (energyBeforeInsulation (with_insulation e "excellent"))
    with (energyBeforeInsulation e).
  change (energyBeforeInsulation (with_insulation e "medium")) with (energyBeforeInsulation e).
  repeat split; apply scale_by.
Qed.

Section EnergyArithmetic.
Import Exact Js.


End EnergyArithmetic.





(** ** Inherited names in category fields *)

Section NotANumber.
Import Exact Js.
Local Open Scope string_scope.

Lemma add_NaN_r (a : num) : (a + NaN)%js = NaN.
Proof. now destruct a. Qed.

Lemma mul_NaN_r (a : num) : (a * NaN)%js = NaN.
Proof. now destruct a. Qed.

Lemma mul_NaN_l (a : num) : (NaN * a)%js = NaN.
Proof. reflexivity. Qed.

Lemma div_NaN_l (a : num) : (NaN / a)%js = NaN.
Proof. reflexivity. Qed.

Lemma inherited_not_empty (k : string) : inherited k = true -> k <> "".
Proof. intros Hk ->. discriminate Hk. Qed.

Lemma inherited_lookup (obj : list (string * num)) (k : string) :
  inherited k = true -> own obj k = None -> to_number (get obj k) = NaN.
Proof. intros Hk Hown. unfold get. now rewrite Hown, Hk. Qed.

Ltac inherited_cases Hk :=
  apply inherited_In in Hk; cbn in Hk;
  repeat (destruct Hk as [Hk | Hk]; [symmetry in Hk; subst |]);
  try contradiction.

Lemma inherited_car_is_not_a_number (t : TransportData num) :
  inherited (carType t) = true -> calculateTransportEmissions t = NaN.
Proof.
  intro Hk. apply unknown_car_type_is_not_a_number.
  - now apply inherited_not_empty.
  - destruct t as [ct ck ca cp pt pk fs fm fl m]; cbn in *.
    inherited_cases Hk; reflexivity.
Qed.

Lemma inherited_public_transport_is_not_a_number (t : TransportData num) :
  inherited (publicTransportType t) = true -> calculateTransportEmissions t = NaN.
Proof.
  intro Hk. destruct t as [ct ck ca cp pt pk fs fm fl m]; cbn in Hk.
  unfold calculateTransportEmissions; cbv zeta.
  cbn [carType carKm carAge carPassengers publicTransportType publicTransportKm
       flightsShortHaul flightsMediumHaul flightsLongHaul].
  match goal with
  | |- context [if ?c then (lit 0 + ?x)%js else lit 0] =>
      generalize (if c then (lit 0 + x)%js else lit 0)
  end.
  intro e. inherited_cases Hk;
    cbn [nan exact truthy_str String.eqb Ascii.eqb Bool.eqb negb andb get own inherited existsb
         prototype_keys orb to_number EMISSIONS_FACTORS.publicTransport];
    rewrite mul_NaN_r, add_NaN_r; reflexivity.
Qed.

Lemma inherited_heating_is_not_a_number (e : EnergyData num) :
  inherited (heatingType e) = true -> calculateEnergyEmissions e = NaN.
Proof.
  intro Hk. rewrite energy_split. unfold energyBeforeInsulation.
  destruct e as [ht hs oc el h hc re rp ins]; cbn in Hk.
  cbn [heatingType heatingConsumption electricityKwh renewableEnergy renewablePercentage
       insulation].
  generalize (electricityPart el re rp). intro x.
  inherited_cases Hk;
    cbn [nan exact get own inherited existsb prototype_keys orb to_number or_else to_boolean
         String.eqb Ascii.eqb Bool.eqb ENERGY_CONVERSION_FACTORS];
    rewrite ?mul_NaN_r, ?div_NaN_l, ?mul_NaN_l, ?add_NaN_r; reflexivity.
Qed.

Lemma inherited_insulation_is_not_a_number (e : EnergyData num) :
  inherited (insulation e) = true -> calculateEnergyEmissions e = NaN.
Proof.
  intro Hk. rewrite energy_split.
  generalize (energyBeforeInsulation e). intro x.
  destruct e as [ht hs oc el h hc re rp ins]; cbn in Hk; cbn [insulation].
  inherited_cases Hk;
    cbn [nan exact get own inherited existsb prototype_keys orb to_number or_else to_boolean
         String.eqb Ascii.eqb Bool.eqb];
    apply mul_NaN_r.
Qed.

Lemma inherited_diet_is_not_a_number_in_general (l : LifestyleData num) :
  inherited (dietType l) = true -> calculateLifestyleEmissions l = NaN.
Proof.
  intro Hk. unfold calculateLifestyleEmissions; cbv zeta.
  destruct l as [dt mf lf wr wc sh w]; cbn in Hk.
  cbn [dietType localFoodPercentage wasteRecycling wasteComposting shoppingHabits].
  inherited_cases Hk;
    cbn [nan exact get own inherited existsb prototype_keys orb to_number or_else to_boolean
         String.eqb Ascii.eqb Bool.eqb EMISSIONS_FACTORS.diet];
    destruct wr, wc; reflexivity.
Qed.

End NotANumber.

(** X11. A category field that holds the name of a property inherited from
    Object.prototype ("constructor", "toString", ...) defeats the fallbacks:
    in exact arithmetic the total and both comparison percentages are NaN. *)
Theorem inherited_name_spoils_the_footprint :
  forall fd : FormData Exact.num,
    Js.inherited (carType (transport fd)) = true \/
    Js.inherited (publicTransportType (transport fd)) = true \/
    Js.inherited (heatingType (energy fd)) = true \/
    Js.inherited (insulation (energy fd)) = true \/
    Js.inherited (dietType (lifestyle fd)) = true ->
    total (calculateFinalFootprint fd) = Exact.NaN /\
    percentageFromNational (comparison (calculateFinalFootprint fd)) = Exact.NaN /\
    percentageFromWorld (comparison (calculateFinalFootprint fd)) = Exact.NaN.
Proof.
  intros fd Hk.
  assert (Htotal : total (calculateFinalFootprint fd) = Exact.NaN).
  { unfold calculateFinalFootprint; cbn [total].
    destruct Hk as [Hk | [Hk | [Hk | [Hk | Hk]]]].
    - now rewrite (inherited_car_is_not_a_number _ Hk).
    - now rewrite (inherited_public_transport_is_not_a_number _ Hk).
    - rewrite (inherited_heating_is_not_a_number _ Hk). now rewrite add_NaN_r.
    - rewrite (inherited_insulation_is_not_a_number _ Hk). now rewrite add_NaN_r.
    - rewrite (inherited_diet_is_not_a_number_in_general _ Hk). now rewrite add_NaN_r. }
  split; [assumption |].
  unfold calculateFinalFootprint in *; cbn [total comparison] in *.
  unfold compareToNationalAverage; cbn [percentageFromNational percentageFromWorld].
  rewrite Htotal. split; reflexivity.
Qed.

Lemma inherited_name_spoils_the_footprint_witness :
  total (calculateFinalFootprint (with_lifestyle neutral_example inherited_diet)) = Exact.NaN.
Proof.
  refine (proj1 (@inherited_name_spoils_the_footprint
                   (with_lifestyle neutral_example inherited_diet) _)).
  do 4 right. vm_compute. reflexivity.
Defined.

(** ** The transport calculator in closed form *)

Section TransportValue.
Import Exact Js.
Local Open Scope string_scope.




End TransportValue.

(** ** Transport: passengers, absent car, flights *)

(** X12. A passenger count of 1 or less (0, a fraction, a negative number) is
    computed as one person on board, in exact arithmetic and for every
    transport record. *)
Theorem passengers_below_one_count_as_one :
  forall (t : TransportData Exact.num) (p : Exact.num),
    Exact.le p (lit 1) ->
    calculateTransportEmissions (with_carPassengers t p)
    = calculateTransportEmissions (with_carPassengers t (lit 1)).
Proof.
  intros t [p |] Hp; [| contradiction].
  rewrite lit_Fin in Hp. cbn [Exact.le] in Hp. rewrite Qred_correct in Hp.
  assert (Hmax : Math_max (Exact.Fin p) (lit 1) = Math_max (lit 1) (lit 1)).
  { rewrite !lit_Fin, !max_Fin. f_equal. apply Qred_complete.
    rewrite !Qred_correct. rewrite Q.max_r by assumption. now rewrite Q.max_id. }
  unfold calculateTransportEmissions.
  cbn [with_carPassengers carType carKm carAge carPassengers publicTransportType
       publicTransportKm flightsShortHaul flightsMediumHaul flightsLongHaul].
  now rewrite Hmax.
Qed.

Lemma passengers_below_one_count_as_one_witness :
  calculateTransportEmissions (with_carPassengers (scenario1 no_motorcycle) (lit 0))
  = calculateTransportEmissions
      (with_carPassengers (scenario1 (num := Exact.num) no_motorcycle) (lit 1)).
Proof.
  apply (@passengers_below_one_count_as_one (scenario1 no_motorcycle) (lit 0)).
  vm_compute. discriminate.
Defined.

(** X13. Without a car (carType empty or "none") the distance, age and passenger
    fields have no effect, and without public transport (mode empty or
    "none") its distance has none; this holds in every number semantics. *)
Theorem absent_modes_ignore_their_fields :
  forall (num : Type) (N : JsNum num) (t : TransportData num) (c : string) (k a p : num),
    c = "" \/ c = "none" ->
    calculateTransportEmissions
      (with_carPassengers (with_carAge (with_carKm (with_carType t c) k) a) p)
    = calculateTransportEmissions (with_carType t "none") /\
    calculateTransportEmissions
      (with_publicTransportKm (with_publicTransportType t c) k)
    = calculateTransportEmissions (with_publicTransportType t "none").
Proof.
  intros num N t c k a p [-> | ->]; split; reflexivity.
Qed.

Lemma absent_modes_ignore_their_fields_witness :
  calculateTransportEmissions
    (with_carPassengers
       (with_carAge (with_carKm (with_carType (scenario1 (num := Binary64.num) no_motorcycle) "")
                      (lit 30000)) (lit 12)) (lit 3))
  = calculateTransportEmissions (with_carType (scenario1 no_motorcycle) "none").
Proof.
  refine (proj1 (@absent_modes_ignore_their_fields Binary64.num Binary64.binary64
                   (scenario1 no_motorcycle) "" (lit 30000) (lit 12) (lit 3) _)).
  left. reflexivity.
Defined.



(** ** Lifestyle: monotonicity and diets *)

Section LifestyleOrder.
Local Open Scope Q_scope.

Lemma lifestyleQ_le (r w : bool) (d d' lf lf' c c' e e' f f' : Q) :
  0 <= d -> d <= d' -> lf' <= lf -> lf' <= 500 ->
  c <= c' -> e <= e' -> f <= f' ->
  lifestyleQ r w d lf c e f <= lifestyleQ r w d' lf' c' e' f'.
Proof.
  intros Hd Hdd Hlf H500 Hc He Hf. unfold lifestyleQ.
  assert (P1 : 0 <= (d' - d) * (1 - lf' * 0.002))
    by (apply Qmult_le_0_compat; lra).
  assert (P2 : 0 <= d * (lf - lf')) by (apply Qmult_le_0_compat; lra).
  setoid_replace (d * (1 - lf * 0.002) / 1000) with (d * (1 - lf * 0.002) * 0.001) by field.
  setoid_replace (d' * (1 - lf' * 0.002) / 1000) with (d' * (1 - lf' * 0.002) * 0.001)
    by field.
  destruct r, w; cbv iota; lra.
Qed.


End LifestyleOrder.

Section LifestyleClosedForm.
Import Exact Js.

Lemma percentage_Fin (a : num) :
  Ranges.percentage a -> exists q, a = Fin q /\ (0 <= q <= 100)%Q.
Proof.
  destruct a as [q |]; unfold Ranges.percentage; rewrite !lit_Fin; cbn [le]; [| tauto].
  rewrite !Qred_correct. intros (H0 & H100). exists q. repeat split; assumption.
Qed.

(** The lifestyle output of a record in range, through [lifestyleQ]. *)
Lemma lifestyle_in_range_value (l : LifestyleData num) :
  Ranges.lifestyle_in_range l ->
  exists v lf c e f,
    localFoodPercentage l = Fin lf /\
    clothes (shoppingHabits l) = Fin c /\
    electronics (shoppingHabits l) = Fin e /\
    furniture (shoppingHabits l) = Fin f /\
    (0 <= lf <= 100)%Q /\ (0 <= c <= 100)%Q /\ (0 <= e <= 100)%Q /\ (0 <= f <= 100)%Q /\
    calculateLifestyleEmissions l = Fin v /\
    (v == lifestyleQ (wasteRecycling l) (wasteComposting l)
            (dietQ (dietType l)) lf c e f)%Q.
Proof.
  intros (Hd & Hlf & Hc & He & Hf).
  apply percentage_Fin in Hlf as (lf & Elf & Hlf), Hc as (c & Ec & Hc),
      He as (e & Ee & He), Hf as (f & Ef & Hf).
  pose proof (diet_resolution _ Hd) as Ed. rewrite lit_Fin in Ed.
  destruct (lifestyle_value l Ed Elf Ec Ee Ef) as (v & Ev & Hv).
  exists v, lf, c, e, f. repeat split; try assumption; try tauto.
  rewrite Hv. unfold lifestyleQ. rewrite Qred_correct. reflexivity.
Qed.

End LifestyleClosedForm.

(** X15. In exact arithmetic, for a lifestyle record in range: more local food
    never raises the output, higher shopping scores never lower it, and the
    five diets are ordered vegan, vegetarian, pescatarian, flexitarian,
    omnivore from the lowest output to the highest. *)
Theorem lifestyle_is_monotone :
  forall l : LifestyleData Exact.num,
    Ranges.lifestyle_in_range l ->
    (forall p, Ranges.percentage p -> Exact.le (localFoodPercentage l) p ->
       Exact.le (calculateLifestyleEmissions (with_localFoodPercentage l p))
                (calculateLifestyleEmissions l)) /\
    (forall c e f,
       Ranges.percentage c -> Ranges.percentage e -> Ranges.percentage f ->
       Exact.le (clothes (shoppingHabits l)) c ->
       Exact.le (electronics (shoppingHabits l)) e ->
       Exact.le (furniture (shoppingHabits l)) f ->
       Exact.le (calculateLifestyleEmissions l)
                (calculateLifestyleEmissions (with_shoppingHabits l c e f))) /\
    Exact.le (calculateLifestyleEmissions (with_dietType l "vegan"))
             (calculateLifestyleEmissions (with_dietType l "vegetarian")) /\
    Exact.le (calculateLifestyleEmissions (with_dietType l "vegetarian"))
             (calculateLifestyleEmissions (with_dietType l "pescatarian")) /\
    Exact.le (calculateLifestyleEmissions (with_dietType l "pescatarian"))
             (calculateLifestyleEmissions (with_dietType l "flexitarian")) /\
    Exact.le (calculateLifestyleEmissions (with_dietType l "flexitarian"))
             (calculateLifestyleEmissions (with_dietType l "omnivore")).
Proof.
  intros l Hl.
  pose proof Hl as (Hd & Hlf & Hc & He & Hf).
  destruct (lifestyle_in_range_value Hl)
    as (v & lf & c & e & f & Elf & Ec & Ee & Ef & Rlf & Rc & Re & Rf & Ev & Hv).
  pose proof (dietQ_bounds (dietType l)) as Hdiet.
  assert (Hdiets : forall d d',
             In d diet_keys -> In d' diet_keys -> (dietQ d <= dietQ d')%Q ->
             Exact.le (calculateLifestyleEmissions (with_dietType l d))
                      (calculateLifestyleEmissions (with_dietType l d'))).
  { intros d d' Hin Hin' Hle.
    assert (R : forall k, In k diet_keys -> Ranges.lifestyle_in_range (with_dietType l k)).
    { intros k Hk. repeat split; try assumption; try apply Hlf; try apply Hc;
        try apply He; try apply Hf.
      cbn in Hk. cbn [with_dietType dietType].
      repeat (destruct Hk as [<- | Hk]; [reflexivity |]). contradiction. }
    destruct (lifestyle_in_range_value (R d Hin))
      as (v1 & lf1 & c1 & e1 & f1 & Elf1 & Ec1 & Ee1 & Ef1 & _ & _ & _ & _ & Ev1 & Hv1).
    destruct (lifestyle_in_range_value (R d' Hin'))
      as (v2 & lf2 & c2 & e2 & f2 & Elf2 & Ec2 & Ee2 & Ef2 & _ & _ & _ & _ & Ev2 & Hv2).
    cbn [with_dietType dietType localFoodPercentage shoppingHabits wasteRecycling
         wasteComposting] in *.
    rewrite Elf in Elf1, Elf2. rewrite Ec in Ec1, Ec2. rewrite Ee in Ee1, Ee2.
    rewrite Ef in Ef1, Ef2.
    injection Elf1 as <-. injection Elf2 as <-. injection Ec1 as <-. injection Ec2 as <-.
    injection Ee1 as <-. injection Ee2 as <-. injection Ef1 as <-. injection Ef2 as <-.
    rewrite Ev1, Ev2. cbn [Exact.le]. rewrite Hv1, Hv2.
    pose proof (dietQ_bounds d). apply lifestyleQ_le; lra. }
  repeat split.
  - intros p Hp Hle.
    apply percentage_Fin in Hp as (q & -> & Hq).
    rewrite Elf in Hle. cbn [Exact.le] in Hle.
    assert (R : Ranges.lifestyle_in_range (with_localFoodPercentage l (Exact.Fin q))).
    { repeat split; try assumption; try apply Hc; try apply He; try apply Hf;
        cbn [with_localFoodPercentage localFoodPercentage]; rewrite lit_Fin;
        cbn [Exact.le]; rewrite Qred_correct; lra. }
    destruct (lifestyle_in_range_value R)
      as (v1 & lf1 & c1 & e1 & f1 & Elf1 & Ec1 & Ee1 & Ef1 & _ & _ & _ & _ & Ev1 & Hv1).
    cbn [with_localFoodPercentage dietType localFoodPercentage shoppingHabits
         wasteRecycling wasteComposting] in *.
    rewrite Ec in Ec1. rewrite Ee in Ee1. rewrite Ef in Ef1.
    injection Elf1 as <-. injection Ec1 as <-. injection Ee1 as <-. injection Ef1 as <-.
    rewrite Ev, Ev1. cbn [Exact.le]. rewrite Hv, Hv1.
    apply lifestyleQ_le; lra.
  - intros c' e' f' Hc' He' Hf' Lc Le Lf.
    apply percentage_Fin in Hc' as (qc & -> & Hqc), He' as (qe & -> & Hqe),
        Hf' as (qf & -> & Hqf).
    rewrite Ec in Lc. rewrite Ee in Le. rewrite Ef in Lf. cbn [Exact.le] in Lc, Le, Lf.
    assert (R : Ranges.lifestyle_in_range
                  (with_shoppingHabits l (Exact.Fin qc) (Exact.Fin qe) (Exact.Fin qf))).
    { repeat split; try assumption; try apply Hlf;
        cbn [with_shoppingHabits shoppingHabits clothes electronics furniture];
        rewrite lit_Fin; cbn [Exact.le]; rewrite Qred_correct; lra. }
    destruct (lifestyle_in_range_value R)
      as (v1 & lf1 & c1 & e1 & f1 & Elf1 & Ec1 & Ee1 & Ef1 & _ & _ & _ & _ & Ev1 & Hv1).
    cbn [with_shoppingHabits dietType localFoodPercentage shoppingHabits clothes
         electronics furniture wasteRecycling wasteComposting] in *.
    rewrite Elf in Elf1.
    injection Elf1 as <-. injection Ec1 as <-. injection Ee1 as <-. injection Ef1 as <-.
    rewrite Ev, Ev1. cbn [Exact.le]. rewrite Hv, Hv1.
    apply lifestyleQ_le; lra.
  - apply Hdiets; cbn; try tauto; discriminate.
  - apply Hdiets; cbn; try tauto; discriminate.
  - apply Hdiets; cbn; try tauto; discriminate.
  - apply Hdiets; cbn; try tauto; discriminate.
Qed.

Lemma lifestyle_is_monotone_witness :
  Exact.le (calculateLifestyleEmissions (with_dietType plain_omnivore "vegan"))
           (calculateLifestyleEmissions (with_dietType plain_omnivore "vegetarian")).
Proof.
  refine (proj1 (proj2 (proj2 (@lifestyle_is_monotone plain_omnivore _)))).
  unfold Ranges.lifestyle_in_range, Ranges.percentage.
  repeat split; try (vm_compute; discriminate); vm_compute; reflexivity.
Defined.

(** ** Forms within range *)

Section RangeArithmetic.
Local Open Scope Q_scope.







End RangeArithmetic.



(** ** Comparison with the averages *)



(** ** Which actions are shown *)

Section ShownActions.
Context {num : Type} `{JsNum num}.

Lemma concat_kept_sectors (l : list Recommendation) :
  concat (map actions (filter has_action l)) = concat (map actions l).
Proof.
  induction l as [| r l IH]; [reflexivity |].
  cbn [filter]. unfold has_action at 1.
  destruct (actions r) eqn:E; cbn [map concat]; rewrite ?E, IH; reflexivity.
Qed.

Lemma fired_app (a b : list (Rule (num := num))) (fd : FormData num) :
  fired (a ++ b) fd = fired a fd ++ fired b fd.
Proof. unfold fired. now rewrite filter_app, map_app. Qed.

Lemma shown_actions_fired (fd : FormData num) :
  shown_actions fd = fired all_rules fd.
Proof.
  unfold shown_actions. rewrite recommendations_follow_rules.
  unfold recommendations_by_rules. rewrite concat_kept_sectors.
  unfold all_rules. rewrite !fired_app.
  cbn [map concat sector actions]. now rewrite app_nil_r.
Qed.

Lemma rule_actions_distinct : NoDup (map snd (all_rules (num := num))).
Proof.
  apply (NoDup_map_inv title).
  unfold all_rules, transport_rules, energy_rules, lifestyle_rules.
  cbn [app map snd title Actions.reduce_car Actions.optimise_flights
       Actions.greener_vehicle Actions.optimise_electricity Actions.switch_to_renewables
       Actions.improve_insulation Actions.change_heating Actions.less_meat
       Actions.local_food Actions.waste_management Actions.responsible_shopping].
  repeat (constructor; [cbn [In]; intuition discriminate |]).
  constructor.
Qed.

Lemma NoDup_map_filter {A B : Type} (g : A -> B) (p : A -> bool) (l : list A) :
  NoDup (map g l) -> NoDup (map g (filter p l)).
Proof.
  induction l as [| x l IH]; cbn; intro Hnd; [constructor |].
  inversion Hnd as [| y ys Hnot Hrest]; subst.
  destruct (p x); cbn; [constructor |]; auto.
  intro Hin. apply Hnot.
  apply in_map_iff in Hin as (z & Hz & Hin).
  apply filter_In in Hin as [Hin _].
  apply in_map_iff. eauto.
Qed.

Lemma NoDup_map_injective {A B : Type} (g : A -> B) (l : list A) (x y : A) :
  NoDup (map g l) -> In x l -> In y l -> g x = g y -> x = y.
Proof.
  induction l as [| z l IH]; cbn; intros Hnd Hx Hy Hg; [contradiction |].
  inversion Hnd as [| ? ? Hnot Hrest]; subst.
  destruct Hx as [-> | Hx], Hy as [-> | Hy]; auto.
  - exfalso. apply Hnot. rewrite Hg. now apply in_map.
  - exfalso. apply Hnot. rewrite <- Hg. now apply in_map.
Qed.

Lemma action_shown_iff (fd : FormData num) (rule : Rule (num := num)) :
  In rule all_rules ->
  (In (snd rule) (shown_actions fd) <-> fst rule fd = true).
Proof.
  intro Hrule. rewrite shown_actions_fired. unfold fired. split.
  - intro Hin. apply in_map_iff in Hin as (r' & Hsnd & Hin).
    apply filter_In in Hin as [Hin Hp].
    assert (r' = rule)
      by (apply (NoDup_map_injective snd all_rules); auto using rule_actions_distinct).
    now subst.
  - intro Hp. apply in_map_iff. exists rule. split; [reflexivity |].
    apply filter_In. now split.
Qed.

End ShownActions.

(** X18. Each of the eleven actions is shown exactly when its own threshold
    predicate holds for the form, and never twice; at most three sectors
    and eleven actions are listed. This holds in every number semantics. *)
Theorem actions_shown_exactly_when_triggered :
  forall (num : Type) (N : JsNum num) (fd : FormData num),
    (forall rule, In rule all_rules ->
       (In (snd rule) (shown_actions fd) <-> fst rule fd = true)) /\
    NoDup (shown_actions fd) /\
    (length (getDetailedRecommendations fd) <= 3)%nat /\
    (length (shown_actions fd) <= 11)%nat.
Proof.
  intros num N fd. repeat split.
  - apply action_shown_iff; assumption.
  - apply action_shown_iff; assumption.
  - rewrite shown_actions_fired. unfold fired.
    apply NoDup_map_filter, rule_actions_distinct.
  - rewrite recommendations_follow_rules. unfold recommendations_by_rules.
    etransitivity; [apply filter_length_le |]. cbn. lia.
  - rewrite shown_actions_fired. unfold fired. rewrite length_map.
    etransitivity; [apply filter_length_le |]. cbn. lia.
Qed.

Lemma actions_shown_exactly_when_triggered_witness :
  In Actions.switch_to_renewables (shown_actions (initialFormData (num := Binary64.num)))
  <-> negb (renewableEnergy (energy (initialFormData (num := Binary64.num)))) = true.
Proof.
  refine (proj1 (@actions_shown_exactly_when_triggered Binary64.num Binary64.binary64
                   initialFormData)
            (fun fd => negb (renewableEnergy (energy fd)), Actions.switch_to_renewables) _).
  unfold all_rules, transport_rules, energy_rules, lifestyle_rules. cbn. tauto.
Defined.

(** X19. A diet string outside the table (the empty string of a fresh form
    included) is charged exactly like "omnivore", yet only the literal
    "omnivore" brings up the advice to eat less meat. *)
Theorem unknown_diet_is_charged_but_not_advised :
  forall (s : semantics) (fd : FormData (number s)) (d : string),
    ~ In d diet_keys ->
    Js.inherited d = false ->
    calculateLifestyleEmissions (with_dietType (lifestyle fd) d)
    = calculateLifestyleEmissions (with_dietType (lifestyle fd) "omnivore") /\
    ~ In Actions.less_meat
        (shown_actions (with_lifestyle fd (with_dietType (lifestyle fd) d))) /\
    In Actions.less_meat
       (shown_actions (with_lifestyle fd (with_dietType (lifestyle fd) "omnivore"))).
Proof.
  intros s fd d Hnot Hinh.
  assert (Hrule : In (fun fd : FormData (number s) =>
                        (dietType (lifestyle fd) =? "omnivore")%string, Actions.less_meat)
                     all_rules).
  { unfold all_rules, transport_rules, energy_rules, lifestyle_rules. cbn. tauto. }
  repeat split.
  - unfold calculateLifestyleEmissions.
    cbn [with_dietType dietType localFoodPercentage shoppingHabits wasteRecycling
         wasteComposting].
    rewrite (@get_absent _ _ d) by assumption.
    destruct s; reflexivity.
  - intro Hin. apply (action_shown_iff _ Hrule) in Hin. cbn in Hin.
    apply String.eqb_eq in Hin. subst d. apply Hnot. cbn. tauto.
  - apply (action_shown_iff _ Hrule). reflexivity.
Qed.

Lemma unknown_diet_is_charged_but_not_advised_witness :
  ~ In Actions.less_meat
      (shown_actions
         (with_lifestyle (initialFormData (num := Binary64.num))
            (with_dietType (lifestyle initialFormData) ""))).
Proof.
  refine (proj1 (proj2 (@unknown_diet_is_charged_but_not_advised binary64_arithmetic
                          initialFormData "" _ _))).
  - cbn. intuition discriminate.
  - reflexivity.
Defined.

(** X20. Ticking the renewable box without choosing a share (the share stays
    undefined, or 0) changes no emission, in both semantics, but it removes
    the advice to switch to renewable energy. *)
Theorem renewable_box_without_share :
  forall (s : semantics) (fd : FormData (number s)),
    calculateEnergyEmissions (with_renewables (energy fd) true None)
    = calculateEnergyEmissions (with_renewables (energy fd) false None) /\
    calculateEnergyEmissions (with_renewables (energy fd) true (Some (lit 0)))
    = calculateEnergyEmissions (with_renewables (energy fd) false None) /\
    In Actions.switch_to_renewables
       (shown_actions (with_energy fd (with_renewables (energy fd) false None))) /\
    ~ In Actions.switch_to_renewables
        (shown_actions (with_energy fd (with_renewables (energy fd) true None))).
Proof.
  intros s fd.
  assert (Hrule : In (fun fd : FormData (number s) => negb (renewableEnergy (energy fd)),
                      Actions.switch_to_renewables) all_rules).
  { unfold all_rules, transport_rules, energy_rules, lifestyle_rules. cbn. tauto. }
  repeat split.
  - destruct s; reflexivity.
  - apply (action_shown_iff _ Hrule). reflexivity.
  - intro Hin. apply (action_shown_iff _ Hrule) in Hin. discriminate Hin.
Qed.
